(** * speechless: the experiment script [main.py]

    A shallow embedding of [main.py] and the properties of its
    configuration, memoisation, run naming and checkpoint selection.

    The module is orchestration code: nearly everything it does is a call
    into another module ([corpus], [net], [net_with_corpus], [tools], ...)
    or into the standard library ([pathlib], [print]).  The embedding keeps
    this visible.  Every call that leaves [main.py] is recorded, with its
    arguments, in a trace; what the call answers (a value or an exception)
    is given by the imported module, here a field of the class [Imports],
    which may look at the whole history of calls.  Python objects returned
    by these calls are references, so that identity ([is]) is equality of
    references.  The attributes that [@lazy] adds to a [Configuration]
    instance live in a store keyed by the instance. *)

From Stdlib Require Import ZArith String Ascii List Lia.
From Stdlib Require Import DecimalString DecimalZ.
From stdpp Require Import base option list gmap strings.

Local Open Scope Z_scope.

(** ** pathlib *)

(** [pathlib.Path] and its [/] operator, as an interface: nothing below
    depends on how paths are represented or normalised. *)
Class PathLib := {
  Path : Type;
  joinpath : Path -> string -> Path
}.

Declare Scope path_scope.
Delimit Scope path_scope with path.
Notation "p // s" := (joinpath p s) (at level 40, left associativity) : path_scope.
Local Open Scope path_scope.

(** ** Python values *)

(** A character of an alphabet: a Python [str] of length one. *)
Definition chr : Type := string.

(** Instances of imported classes are references. *)
Inductive Corpus := Corpus_at (address : nat).
Inductive LabeledSpectrogramBatchGenerator := LabeledSpectrogramBatchGenerator_at (address : nat).
Inductive Wav2Letter := Wav2Letter_at (address : nat).
Inductive Wav2LetterWithCorpus := Wav2LetterWithCorpus_at (address : nat).
Inductive LabeledExample := LabeledExample_at (address : nat).
Inductive Spectrogram := Spectrogram_at (address : nat).

(** A raised exception, by the name of its class. *)
Inductive Exn := Exception (class_name : string).

Definition ConfigurationError : Exn := Exception "ConfigurationError".

Inductive Outcome (A : Type) :=
| Returns (a : A)
| Raises (e : Exn).
Arguments Returns {A} a.
Arguments Raises {A} e.

(** [str(n)] and ["{}".format(n)] of a Python [int]. *)
Definition str_of_int (n : Z) : string := NilZero.string_of_int (Z.to_int n).

(** The double quote character, and a text between double quotes. *)
Definition dquote : string := String (ascii_of_nat 34) EmptyString.
Definition quoted (s : string) : string := dquote +:+ s +:+ dquote.

(** A callable of type [Callable[[Path], Corpus]]: either a function of
    another module, known by its name, or this module's
    [load_cached_corpus]. *)
Inductive Callable :=
| imported_function (name : string)
| load_cached_corpus_function.

Definition english_corpus : Callable := imported_function "english_corpus".
Definition german_corpus : Callable := imported_function "german_corpus".

Section Calls.
Context {paths : PathLib}.

(** The keyword arguments of the [Wav2Letter] constructor, as
    [load_best_wav2letter_model] passes them. *)
Record Wav2LetterArguments := {
  arg_allowed_characters : list chr;
  arg_input_size_per_time_step : Z;
  arg_load_model_from_directory : Path;
  arg_load_epoch : Z;
  arg_allowed_characters_for_loaded_model : list chr;
  arg_frozen_layer_count : Z;
  arg_kenlm_directory : option Path
}.

(** The calls that leave [main.py]. *)
Inductive Call :=
| call_timestamp
| call_function (name : string) (directory : Path)
| call_Corpus_load (file : Path)
| call_LabeledSpectrogramBatchGenerator (corpus : Corpus) (spectrogram_cache_directory : Path)
| call_Wav2Letter (arguments : Wav2LetterArguments)
| call_Wav2LetterWithCorpus (wav2letter : Wav2Letter) (corpus : Corpus)
                            (spectrogram_cache_directory : Path)
| call_train (self : Wav2LetterWithCorpus) (tensor_board_log_directory net_directory : Path)
             (batches_per_epoch : Z)
| call_fill_cache (self : LabeledSpectrogramBatchGenerator)
| call_print (text : string)
| call_LabeledExample (file : Path)
| call_z_normalized_transposed_spectrogram (self : LabeledExample)
| call_predict_single (self : Wav2Letter) (spectrogram : Spectrogram).

(** What [main.py] imports.  A function or method answers from the calls made
    so far and its arguments. *)
Class Imports := {
  (* tools *)
  home_directory : Path;
  timestamp_answer : list Call -> Outcome string;
  (* grapheme_enconding *)
  english_frequent_characters : list chr;
  german_frequent_characters : list chr;
  (* english_corpus, german_corpus, and any other function a caller passes *)
  function_answer : list Call -> string -> Path -> Outcome Corpus;
  (* corpus *)
  Corpus_load_answer : list Call -> Path -> Outcome Corpus;
  LabeledSpectrogramBatchGenerator_answer :
    list Call -> Corpus -> Path -> Outcome LabeledSpectrogramBatchGenerator;
  fill_cache_answer : list Call -> LabeledSpectrogramBatchGenerator -> Outcome unit;
  (* net, net_with_corpus *)
  Wav2Letter_answer : list Call -> Wav2LetterArguments -> Outcome Wav2Letter;
  Wav2LetterWithCorpus_answer :
    list Call -> Wav2Letter -> Corpus -> Path -> Outcome Wav2LetterWithCorpus;
  train_answer : list Call -> Wav2LetterWithCorpus -> Path -> Path -> Z -> Outcome unit;
  predict_single_answer : list Call -> Wav2Letter -> Spectrogram -> Outcome string;
  (* labeled_example *)
  LabeledExample_answer : list Call -> Path -> Outcome LabeledExample;
  z_normalized_transposed_spectrogram_answer :
    list Call -> LabeledExample -> Outcome Spectrogram;
  (* builtins *)
  print_answer : list Call -> string -> Outcome unit
}.

(** ** The state and the monad of effects *)

(** The trace of calls, the allocator of [Configuration] instances, and
    the attributes [@lazy] has stored in each instance's [__dict__]. *)
Record World := {
  trace : list Call;
  next_instance : nat;
  corpus_slot : gmap nat Corpus;
  batch_generator_slot : gmap nat LabeledSpectrogramBatchGenerator
}.

Definition initial_world : World :=
  {| trace := []; next_instance := 0; corpus_slot := ∅; batch_generator_slot := ∅ |}.

Definition M (A : Type) : Type := World -> Outcome A * World.

Definition ret {A} (a : A) : M A := fun w => (Returns a, w).

Definition bind {A B} (m : M A) (k : A -> M B) : M B :=
  fun w =>
    match m w with
    | (Returns a, w') => k a w'
    | (Raises e, w') => (Raises e, w')
    end.

Definition log (c : Call) (w : World) : World :=
  {| trace := trace w ++ [c];
     next_instance := next_instance w;
     corpus_slot := corpus_slot w;
     batch_generator_slot := batch_generator_slot w |}.

(** A call leaving the module: it is recorded, then answered. *)
Definition external {A} (c : Call) (answer : list Call -> Outcome A) : M A :=
  fun w => (answer (trace w), log c w).

End Calls.

Declare Scope m_scope.
Delimit Scope m_scope with m.
Notation "'let*' x ':=' m 'in' k" := (bind m (fun x => k))
  (at level 10, x binder, m at level 100, k at level 200) : m_scope.
Local Open Scope m_scope.

Section Main.
Context {paths : PathLib} {imports : Imports}.

(** ** Module constants (lines 18-24) *)

Definition base_directory : Path := home_directory // "speechless-data".
Definition tensorboard_log_base_directory : Path := base_directory // "logs".
Definition nets_base_directory : Path := base_directory // "nets".
Definition recording_directory : Path := base_directory // "recordings".
Definition corpus_base_directory : Path := base_directory // "corpus".
Definition spectrogram_cache_base_directory : Path := base_directory // "spectrogram-cache".
Definition kenlm_base_directory : Path := base_directory // "kenlm".

(** ** Imported functions as computations *)

Definition timestamp : M string := external call_timestamp timestamp_answer.

Definition Corpus_load (file : Path) : M Corpus :=
  external (call_Corpus_load file) (fun h => Corpus_load_answer h file).

(** [load_cached_corpus] (lines 27-28). *)
Definition load_cached_corpus (corpus_directory : Path) : M Corpus :=
  Corpus_load (corpus_directory // "corpus.csv").

(** Calling a [Callable] on a directory. *)
Definition invoke (f : Callable) (directory : Path) : M Corpus :=
  match f with
  | imported_function name =>
      external (call_function name directory) (fun h => function_answer h name directory)
  | load_cached_corpus_function => load_cached_corpus directory
  end.

(** The call that one invocation of [f] on [directory] records. *)
Definition invocation (f : Callable) (directory : Path) : Call :=
  match f with
  | imported_function name => call_function name directory
  | load_cached_corpus_function => call_Corpus_load (directory // "corpus.csv")
  end.

(** ** class Configuration *)

(** The attributes [__init__] sets; [instance] is the identity of the
    object. *)
Record Configuration := {
  instance : nat;
  name : string;
  spectrogram_cache_directory : Path;
  corpus_directory : Path;
  corpus_from_directory : Callable;
  allowed_characters : list chr
}.

(** [__init__] (lines 32-43).  A directory argument is a [Path] or [None];
    a [Path] object is always true. *)
Definition Configuration_init (self : nat) (name : string) (allowed_characters : list chr)
    (corpus_from_directory : Callable)
    (corpus_directory spectrogram_cache_directory : option Path) : Configuration :=
  {| instance := self;
     name := name;
     spectrogram_cache_directory :=
       match spectrogram_cache_directory with
       | Some d => d
       | None => spectrogram_cache_base_directory // name
       end;
     corpus_directory :=
       match corpus_directory with
       | Some d => d
       | None => corpus_base_directory // name
       end;
     corpus_from_directory := corpus_from_directory;
     allowed_characters := allowed_characters |}.

Definition allocate : M nat :=
  fun w => (Returns (next_instance w),
            {| trace := trace w;
               next_instance := S (next_instance w);
               corpus_slot := corpus_slot w;
               batch_generator_slot := batch_generator_slot w |}).

(** [Configuration(...)]: a new object, then [__init__]. *)
Definition Configuration_new (name : string) (allowed_characters : list chr)
    (corpus_from_directory : Callable)
    (corpus_directory spectrogram_cache_directory : option Path) : M Configuration :=
  let* self := allocate in
  ret (Configuration_init self name allowed_characters corpus_from_directory
         corpus_directory spectrogram_cache_directory).

(** The decorator [@lazy]: the attribute is read from the instance's
    [__dict__] when it is there; otherwise the function runs and, when it
    returns, its value is stored there. *)
Definition lazy {A} (slot : World -> option A) (store : A -> World -> World)
    (func : M A) : M A :=
  fun w =>
    match slot w with
    | Some v => (Returns v, w)
    | None =>
        match func w with
        | (Returns v, w') => (Returns v, store v w')
        | (Raises e, w') => (Raises e, w')
        end
    end.

Definition store_corpus (self : Configuration) (v : Corpus) (w : World) : World :=
  {| trace := trace w;
     next_instance := next_instance w;
     corpus_slot := <[instance self := v]> (corpus_slot w);
     batch_generator_slot := batch_generator_slot w |}.

Definition store_batch_generator (self : Configuration)
    (v : LabeledSpectrogramBatchGenerator) (w : World) : World :=
  {| trace := trace w;
     next_instance := next_instance w;
     corpus_slot := corpus_slot w;
     batch_generator_slot := <[instance self := v]> (batch_generator_slot w) |}.

(** [corpus] (lines 45-47). *)
Definition corpus (self : Configuration) : M Corpus :=
  lazy (fun w => corpus_slot w !! instance self) (store_corpus self)
       (invoke (corpus_from_directory self) (corpus_directory self)).

(** [batch_generator] (lines 49-52). *)
Definition batch_generator (self : Configuration) : M LabeledSpectrogramBatchGenerator :=
  lazy (fun w => batch_generator_slot w !! instance self) (store_batch_generator self)
       (let* c := corpus self in
        external (call_LabeledSpectrogramBatchGenerator c (spectrogram_cache_directory self))
                 (fun h => LabeledSpectrogramBatchGenerator_answer h c
                             (spectrogram_cache_directory self))).

(** [english] (lines 54-58). *)
Definition english : M Configuration :=
  Configuration_new "English" english_frequent_characters english_corpus None None.

(** [german] (lines 60-64); [from_cached] is [None] when the argument is
    left out. *)
Definition german (from_cached : option bool) : M Configuration :=
  let from_cached := default true from_cached in
  Configuration_new "German" german_frequent_characters
    (if from_cached then load_cached_corpus_function else german_corpus) None None.

(** [fill_up_cache] (lines 89-90). *)
Definition fill_up_cache (self : Configuration) : M unit :=
  let* g := batch_generator self in
  external (call_fill_cache g) (fun h => fill_cache_answer h g).

(** ** load_best_wav2letter_model (lines 120-133) *)

Definition checkpoint_directory_name : string :=
  "20170316-180957-adam-small-learning-rate-complete-95".

(** An argument is [None] when the caller leaves it out. *)
Definition load_best_wav2letter_model (mel_frequency_count : option Z)
    (frozen_layer_count : option Z) (allowed_characters : option (list chr))
    (use_ken_lm : option bool) : M Wav2Letter :=
  let mel_frequency_count := default 128 mel_frequency_count in
  let frozen_layer_count := default 0 frozen_layer_count in
  let allowed_characters := default english_frequent_characters allowed_characters in
  let use_ken_lm := default false use_ken_lm in
  let arguments :=
    {| arg_allowed_characters := allowed_characters;
       arg_input_size_per_time_step := mel_frequency_count;
       arg_load_model_from_directory := nets_base_directory // checkpoint_directory_name;
       arg_load_epoch := 1192;
       arg_allowed_characters_for_loaded_model := english_frequent_characters;
       arg_frozen_layer_count := frozen_layer_count;
       arg_kenlm_directory :=
         if use_ken_lm then Some (kenlm_base_directory // "english") else None |} in
  external (call_Wav2Letter arguments) (fun h => Wav2Letter_answer h arguments).

(** ** train_transfer_from_best_english_model (lines 99-117) *)

Definition transfer_slug : string := "-adam-small-learning-rate-transfer-to-".
Definition freeze_slug : string := "-freeze-".

(** The run name of lines 106-107, from the answer of [timestamp()]. *)
Definition transfer_run_name (stamp name : string) (frozen_layer_count : Z) : string :=
  stamp +:+ transfer_slug +:+ name +:+ freeze_slug +:+ str_of_int frozen_layer_count.

Definition train_transfer_from_best_english_model (self : Configuration)
    (trainable_layer_count : option Z) : M unit :=
  let trainable_layer_count := default 1 trainable_layer_count in
  let mel_frequency_count := 128 in
  let batches_per_epoch := 100 in
  let layer_count := 11 in
  let frozen_layer_count := layer_count - trainable_layer_count in
  let* stamp := timestamp in
  let run_name := transfer_run_name stamp (name self) frozen_layer_count in
  let* wav2letter :=
    load_best_wav2letter_model (Some mel_frequency_count) (Some frozen_layer_count)
      (Some (allowed_characters self)) None in
  let* c := corpus self in
  let* wav2letter_with_corpus :=
    external (call_Wav2LetterWithCorpus wav2letter c (spectrogram_cache_directory self))
      (fun h => Wav2LetterWithCorpus_answer h wav2letter c (spectrogram_cache_directory self)) in
  external
    (call_train wav2letter_with_corpus (tensorboard_log_base_directory // run_name)
       (nets_base_directory // run_name) batches_per_epoch)
    (fun h => train_answer h wav2letter_with_corpus (tensorboard_log_base_directory // run_name)
                (nets_base_directory // run_name) batches_per_epoch).

(** ** predict_recording (lines 148-176) *)

Definition print (text : string) : M unit :=
  external (call_print text) (fun h => print_answer h text).

Section predict_recording.
Variable wav2letter : Wav2Letter.

Definition predict (labeled_spectrogram : LabeledExample) : M string :=
  let* spectrogram :=
    external (call_z_normalized_transposed_spectrogram labeled_spectrogram)
      (fun h => z_normalized_transposed_spectrogram_answer h labeled_spectrogram) in
  external (call_predict_single wav2letter spectrogram)
    (fun h => predict_single_answer h wav2letter spectrogram).

(** Every call in the function gives a non-empty [description], so the
    branch reading [labeled_spectrogram.id] is never taken. *)
Definition print_prediction (labeled_spectrogram : LabeledExample) (description : string)
    : M unit :=
  let* prediction := predict labeled_spectrogram in
  print (description +:+ ": " +:+ quoted prediction).

Definition print_prediction_from_file (file_name description : string) : M unit :=
  let* example :=
    external (call_LabeledExample (recording_directory // file_name))
      (fun h => LabeledExample_answer h (recording_directory // file_name)) in
  print_prediction example description.

End predict_recording.

Definition print_example_predictions (wav2letter : Wav2Letter) : M unit :=
  let* _ := print "Predictions: " in
  let* _ := print_prediction_from_file wav2letter "6930-75918-0000.flac"
              ("Sample labeled " +:+ quoted "concord returned to its place amidst the tents") in
  let* _ := print_prediction_from_file wav2letter "recording-20170310-135534.wav"
              "Recorded playback of the same sample" in
  let* _ := print_prediction_from_file wav2letter "recording-20170310-135144.wav"
              "Recording of me saying the same sentence" in
  let* _ := print_prediction_from_file wav2letter "recording-20170314-224329.wav"
              ("Recording of me saying " +:+ quoted "I just wrote a speech recognizer") in
  print_prediction_from_file wav2letter "bad-quality-louis.wav"
    "Louis' rerecording of worse quality".

Definition predict_recording : M unit :=
  let* wav2letter := load_best_wav2letter_model None None None None in
  print_example_predictions wav2letter.

End Main.

(** ** Reading a run name back *)

(** [sep] removed from the front of [s], when [s] starts with it. *)
Fixpoint strip_prefix (sep s : string) : option string :=
  match sep, s with
  | EmptyString, _ => Some s
  | String a sep', String b s' => if Ascii.eqb a b then strip_prefix sep' s' else None
  | String _ _, EmptyString => None
  end.

(** [s.partition(sep)]: the text before and after the first [sep]. *)
Fixpoint partition (sep s : string) : option (string * string) :=
  match strip_prefix sep s with
  | Some rest => Some (EmptyString, rest)
  | None =>
      match s with
      | EmptyString => None
      | String c s' =>
          match partition sep s' with
          | Some (before, rest) => Some (String c before, rest)
          | None => None
          end
      end
  end.

(** [s.rpartition(sep)]: the text before and after the last [sep]. *)
Fixpoint rpartition (sep s : string) : option (string * string) :=
  match s with
  | EmptyString => None
  | String c s' =>
      match rpartition sep s' with
      | Some (before, rest) => Some (String c before, rest)
      | None =>
          match strip_prefix sep s with
          | Some rest => Some (EmptyString, rest)
          | None => None
          end
      end
  end.

(** [sub in s]. *)
Definition contains (sub s : string) : bool :=
  match partition sub s with Some _ => true | None => false end.

(** [c in s] for a character. *)
Fixpoint occurs (c : ascii) (s : string) : bool :=
  match s with
  | EmptyString => false
  | String b s' => Ascii.eqb b c || occurs c s'
  end.

(** [int(s)] for the texts [str] produces. *)
Definition int_of_str (s : string) : option Z :=
  match NilZero.int_of_string s with
  | Some d => Some (Z.of_int d)
  | None => None
  end.

(** A transfer run name read back into the timestamp, the configuration
    name and the frozen layer count. *)
Definition parse_transfer_run_name (run_name : string) : option (string * string * Z) :=
  match partition transfer_slug run_name with
  | None => None
  | Some (stamp, rest) =>
      match rpartition freeze_slug rest with
      | None => None
      | Some (name, digits) =>
          match int_of_str digits with
          | Some n => Some (stamp, name, n)
          | None => None
          end
      end
  end.

(** ** The output layer of a model loaded for another alphabet *)

Module AlphabetMapping.
Section Transfer.

(** The parameters of the output layer that belong to one symbol. *)
Variable Row : Type.

Fixpoint index_of (c : chr) (alphabet : list chr) : option nat :=
  match alphabet with
  | [] => None
  | x :: rest => if String.eqb x c then Some 0%nat else S <$> index_of c rest
  end.

(** Modelled from the spec: the weight loading of [net.Wav2Letter], which
    is not among the sources.  Section 4.3, step 3: for the
    alphabet-dependent layer, the sub-tensor of a symbol of the target
    alphabet is the checkpoint's sub-tensor of the same symbol when the
    trained alphabet has it, found by the symbol and not by its position;
    otherwise it is freshly initialised.  The result pairs each row with
    the initialisation mask of section 9. *)
Definition transfer_symbol (trained : list chr) (checkpoint : list Row)
    (fresh : nat -> Row) (position : nat) (c : chr) : Row * bool :=
  match index_of c trained ≫= (checkpoint !!.) with
  | Some row => (row, false)
  | None => (fresh position, true)
  end.

Definition transfer_output_weights (trained target : list chr) (checkpoint : list Row)
    (fresh : nat -> Row) : list (Row * bool) :=
  imap (transfer_symbol trained checkpoint fresh) target.

(** The output layer the constructor builds from its arguments. *)
Definition resolved_output_weights {paths : PathLib} (arguments : Wav2LetterArguments)
    (checkpoint : list Row) (fresh : nat -> Row) : list (Row * bool) :=
  transfer_output_weights (arg_allowed_characters_for_loaded_model arguments)
    (arg_allowed_characters arguments) checkpoint fresh.

End Transfer.

(** Modelled from the spec: what the claims need of the class
    [net.Wav2Letter], which is not among the sources.  A checkpoint, named
    by a directory and an epoch, stores the rows of the output layer of the
    trained model, one for each symbol of the trained alphabet.  A model
    object has an output layer; later calls (training) may change it, so it
    is read after the calls made so far. *)
Class Net {paths : PathLib} (Row : Type) := {
  checkpoint_output_layer : Path -> Z -> list Row;
  fresh_row : nat -> Row;
  output_layer : list Call -> Wav2Letter -> list (Row * bool)
}.

(** Modelled from the spec: the constructor of [net.Wav2Letter], which is
    not among the sources.  Section 4.3, steps 1 and 3: whenever the
    constructor of the imports returns a model, the output layer of that
    model is, when the call returns, the one built for the target alphabet
    of the arguments from the checkpoint that the arguments name, trained on
    the alphabet that the arguments give for it. *)
Definition constructor_transfers_by_symbol {paths : PathLib} {imports : Imports}
    {Row : Type} {net : Net Row} : Prop :=
  forall h arguments model,
    Wav2Letter_answer h arguments = Returns model ->
    output_layer (h ++ [call_Wav2Letter arguments]) model
    = resolved_output_weights Row arguments
        (checkpoint_output_layer (arg_load_model_from_directory arguments)
           (arg_load_epoch arguments))
        fresh_row.

End AlphabetMapping.

(** ** Worlds in time *)

Section Order.
Context {paths : PathLib}.

(** [w'] is [w] or comes after it: calls are only added, and what [@lazy]
    has stored stays. *)
Definition later (w w' : World) : Prop :=
  trace w `prefix_of` trace w'
  /\ corpus_slot w ⊆ corpus_slot w'
  /\ batch_generator_slot w ⊆ batch_generator_slot w'.

(** A computation after which the world is later, whatever it started in. *)
Definition increasing {A} (m : M A) : Prop := forall w, later w (snd (m w)).

(** The calls made between two worlds. *)
Definition calls_between (w w' : World) : list Call :=
  drop (length (trace w)) (trace w').

Definition is_Wav2Letter_call (c : Call) : bool :=
  match c with call_Wav2Letter _ => true | _ => false end.

Definition predicts_with (wav2letter : Wav2Letter) (c : Call) : Prop :=
  match c with
  | call_predict_single self _ => self = wav2letter
  | _ => True
  end.

Definition is_train_call (c : Call) : bool :=
  match c with call_train _ _ _ _ => true | _ => false end.

Context {imports : Imports}.

(** The exception is the answer of an imported function, constructor or
    method that transfer training calls. *)
Definition raised_by_import (e : Exn) : Prop :=
  exists h,
    timestamp_answer h = Raises e
    \/ (exists arguments, Wav2Letter_answer h arguments = Raises e)
    \/ (exists function directory, function_answer h function directory = Raises e)
    \/ (exists file, Corpus_load_answer h file = Raises e)
    \/ (exists wav2letter c directory,
          Wav2LetterWithCorpus_answer h wav2letter c directory = Raises e)
    \/ (exists self logs nets batches, train_answer h self logs nets batches = Raises e).

(** The arguments with which transfer training has the model loaded. *)
Definition transfer_arguments (self : Configuration) (frozen_layer_count : Z)
    : Wav2LetterArguments :=
  {| arg_allowed_characters := allowed_characters self;
     arg_input_size_per_time_step := 128;
     arg_load_model_from_directory := nets_base_directory // checkpoint_directory_name;
     arg_load_epoch := 1192;
     arg_allowed_characters_for_loaded_model := english_frequent_characters;
     arg_frozen_layer_count := frozen_layer_count;
     arg_kenlm_directory := None |}.

(** The arguments [load_best_wav2letter_model()] passes when called
    without arguments. *)
Definition default_arguments : Wav2LetterArguments :=
  {| arg_allowed_characters := english_frequent_characters;
     arg_input_size_per_time_step := 128;
     arg_load_model_from_directory := nets_base_directory // checkpoint_directory_name;
     arg_load_epoch := 1192;
     arg_allowed_characters_for_loaded_model := english_frequent_characters;
     arg_frozen_layer_count := 0;
     arg_kenlm_directory := None |}.

(** The five files of the demo, each with its description. *)
Definition example_files : list (string * string) :=
  [ ("6930-75918-0000.flac",
     "Sample labeled " +:+ quoted "concord returned to its place amidst the tents");
    ("recording-20170310-135534.wav", "Recorded playback of the same sample");
    ("recording-20170310-135144.wav", "Recording of me saying the same sentence");
    ("recording-20170314-224329.wav",
     "Recording of me saying " +:+ quoted "I just wrote a speech recognizer");
    ("bad-quality-louis.wav", "Louis' rerecording of worse quality") ].

(** The calls that transcribe one file with the model [wav2letter] and
    print the transcription, given the objects and the text the calls
    answer. *)
Definition prediction_calls (wav2letter : Wav2Letter) (file : string * string)
    (answers : LabeledExample * Spectrogram * string) : list Call :=
  let '(file_name, description) := file in
  let '(example, spectrogram, prediction) := answers in
  [ call_LabeledExample (recording_directory // file_name);
    call_z_normalized_transposed_spectrogram example;
    call_predict_single wav2letter spectrogram;
    call_print (description +:+ ": " +:+ quoted prediction) ].

Definition demo_calls (wav2letter : Wav2Letter)
    (answers : list (LabeledExample * Spectrogram * string)) : list Call :=
  call_print "Predictions: "
  :: concat (zip_with (prediction_calls wav2letter) example_files answers).

(** What the four calls for one file answer when they are made after the
    calls [h]: [LabeledExample] answers the example for the file, that
    example answers its spectrogram, [predict_single] of [wav2letter] answers
    the text for that spectrogram, and [print] of the description with that
    text returns. *)
Definition transcribed (wav2letter : Wav2Letter) (h : list Call) (file : string * string)
    (answers : LabeledExample * Spectrogram * string) : Prop :=
  let '(file_name, description) := file in
  let '(example, spectrogram, prediction) := answers in
  let opened := call_LabeledExample (recording_directory // file_name) in
  let transformed := call_z_normalized_transposed_spectrogram example in
  let predicted := call_predict_single wav2letter spectrogram in
  LabeledExample_answer h (recording_directory // file_name) = Returns example
  /\ z_normalized_transposed_spectrogram_answer (h ++ [opened]) example = Returns spectrogram
  /\ predict_single_answer (h ++ [opened; transformed]) wav2letter spectrogram
     = Returns prediction
  /\ print_answer (h ++ [opened; transformed; predicted])
       (description +:+ ": " +:+ quoted prediction) = Returns tt.

(** The files are transcribed one after the other, each after the calls
    for the files before it; there is one answer for each file. *)
Fixpoint transcriptions (wav2letter : Wav2Letter) (h : list Call)
    (files : list (string * string))
    (answers : list (LabeledExample * Spectrogram * string)) : Prop :=
  match files, answers with
  | [], [] => True
  | file :: files, answer :: answers =>
      transcribed wav2letter h file answer
      /\ transcriptions wav2letter (h ++ prediction_calls wav2letter file answer) files answers
  | _, _ => False
  end.

(** A call of the demo once the model is there: no further model is
    built, and predictions use [wav2letter]. *)
Definition demo_call (wav2letter : Wav2Letter) (c : Call) : Prop :=
  is_Wav2Letter_call c = false /\ predicts_with wav2letter c.

(** [m] only adds calls that are [good], leaves what [@lazy] stored, and
    when it returns its calls have the [shape]. *)
Definition makes {A} (m : M A) (good : Call -> Prop) (shape : A -> list Call -> Prop) : Prop :=
  forall w, exists calls,
    trace (snd (m w)) = trace w ++ calls
    /\ corpus_slot (snd (m w)) = corpus_slot w
    /\ batch_generator_slot (snd (m w)) = batch_generator_slot w
    /\ Forall good calls
    /\ (forall a, fst (m w) = Returns a -> shape a calls).

(** The ways a run of transfer training ends: at the first imported call
    that raises, or with the answer of [train]. *)
Inductive transfer_run (self : Configuration) (trainable_layer_count : option Z) (w : World)
    : Outcome unit * World -> Prop :=
| stops_at_timestamp e :
    timestamp_answer (trace w) = Raises e ->
    transfer_run self trainable_layer_count w (Raises e, log call_timestamp w)
| stops_at_model stamp e :
    let arguments := transfer_arguments self (11 - default 1 trainable_layer_count) in
    timestamp_answer (trace w) = Returns stamp ->
    Wav2Letter_answer (trace w ++ [call_timestamp]) arguments = Raises e ->
    transfer_run self trainable_layer_count w
      (Raises e, log (call_Wav2Letter arguments) (log call_timestamp w))
| stops_at_corpus stamp wav2letter e w2 :
    let arguments := transfer_arguments self (11 - default 1 trainable_layer_count) in
    timestamp_answer (trace w) = Returns stamp ->
    Wav2Letter_answer (trace w ++ [call_timestamp]) arguments = Returns wav2letter ->
    corpus self (log (call_Wav2Letter arguments) (log call_timestamp w)) = (Raises e, w2) ->
    transfer_run self trainable_layer_count w (Raises e, w2)
| stops_at_wrapper stamp wav2letter c e w2 :
    let arguments := transfer_arguments self (11 - default 1 trainable_layer_count) in
    timestamp_answer (trace w) = Returns stamp ->
    Wav2Letter_answer (trace w ++ [call_timestamp]) arguments = Returns wav2letter ->
    corpus self (log (call_Wav2Letter arguments) (log call_timestamp w)) = (Returns c, w2) ->
    Wav2LetterWithCorpus_answer (trace w2) wav2letter c (spectrogram_cache_directory self)
    = Raises e ->
    transfer_run self trainable_layer_count w
      (Raises e,
       log (call_Wav2LetterWithCorpus wav2letter c (spectrogram_cache_directory self)) w2)
| reaches_train stamp wav2letter c wwc w2 :
    let frozen := 11 - default 1 trainable_layer_count in
    let arguments := transfer_arguments self frozen in
    let logs := tensorboard_log_base_directory // transfer_run_name stamp (name self) frozen in
    let nets := nets_base_directory // transfer_run_name stamp (name self) frozen in
    let w3 := log (call_Wav2LetterWithCorpus wav2letter c (spectrogram_cache_directory self))
                w2 in
    timestamp_answer (trace w) = Returns stamp ->
    Wav2Letter_answer (trace w ++ [call_timestamp]) arguments = Returns wav2letter ->
    corpus self (log (call_Wav2Letter arguments) (log call_timestamp w)) = (Returns c, w2) ->
    Wav2LetterWithCorpus_answer (trace w2) wav2letter c (spectrogram_cache_directory self)
    = Returns wwc ->
    transfer_run self trainable_layer_count w
      (train_answer (trace w3) wwc logs nets 100, log (call_train wwc logs nets 100) w3).

End Order.

(** ** A sample environment *)

(** Paths as the list of their parts. *)
Definition parts : PathLib := {| Path := list string; joinpath p s := p ++ [s] |}.

(** Imports whose every call returns a new object, except that a corpus
    function raises as long as fewer than [failures] calls were made. *)
Definition studio (failures : nat) : @Imports parts :=
  {| home_directory := ["home"; "me"] : @Path parts;
     timestamp_answer := fun _ => Returns "20170316-180957";
     english_frequent_characters := ["a"; "b"; "c"];
     german_frequent_characters := ["b"; "c"; "d"];
     function_answer := fun h _ _ =>
       if (length h <? failures)%nat then Raises (Exception "FileNotFoundError")
       else Returns (Corpus_at (length h));
     Corpus_load_answer := fun h _ =>
       if (length h <? failures)%nat then Raises (Exception "FileNotFoundError")
       else Returns (Corpus_at (length h));
     LabeledSpectrogramBatchGenerator_answer := fun h _ _ =>
       Returns (LabeledSpectrogramBatchGenerator_at (length h));
     fill_cache_answer := fun _ _ => Returns tt;
     Wav2Letter_answer := fun h _ => Returns (Wav2Letter_at (length h));
     Wav2LetterWithCorpus_answer := fun h _ _ _ => Returns (Wav2LetterWithCorpus_at (length h));
     train_answer := fun _ _ _ _ _ => Returns tt;
     predict_single_answer := fun _ _ _ => Returns "concord returned to its place";
     LabeledExample_answer := fun h _ => Returns (LabeledExample_at (length h));
     z_normalized_transposed_spectrogram_answer := fun h _ => Returns (Spectrogram_at (length h));
     print_answer := fun _ _ => Returns tt |}.

(** [Configuration.english()] and [Configuration.german()] as the first
    object made in the sample environment. *)
Definition sample_english (failures : nat) : @Configuration parts :=
  @Configuration_init parts (studio failures) 0 "English" ["a"; "b"; "c"] english_corpus
    None None.

Definition sample_german (failures : nat) : @Configuration parts :=
  @Configuration_init parts (studio failures) 0 "German" ["b"; "c"; "d"]
    load_cached_corpus_function None None.

(** The world after that object was made. *)
Definition sample_world : @World parts :=
  {| trace := []; next_instance := 1; corpus_slot := ∅; batch_generator_slot := ∅ |}.

Definition sample_home : @Path parts := ["home"; "me"; "speechless-data"].

(** A sample of the [net] module for the sample imports: the checkpoint
    has the rows 10, 20, 30, the fresh row at position [j] is [100 + j], and
    the model that the call number [n] constructed has the output layer
    transferred for the arguments of that call. *)
Definition sample_net : @AlphabetMapping.Net parts Z :=
  {| AlphabetMapping.checkpoint_output_layer := fun _ _ => [10; 20; 30];
     AlphabetMapping.fresh_row := fun j => 100 + Z.of_nat j;
     AlphabetMapping.output_layer := fun t model =>
       let 'Wav2Letter_at n := model in
       match t !! n with
       | Some (call_Wav2Letter arguments) =>
           AlphabetMapping.resolved_output_weights Z arguments [10; 20; 30]
             (fun j => 100 + Z.of_nat j)
       | _ => []
       end |}.

(** ** Objects and what is stored in them *)

Section Store.
Context {paths : PathLib}.

(** Nothing is stored in an object that has not been made yet. *)
Definition well_formed (w : World) : Prop :=
  forall i, (next_instance w <= i)%nat ->
    corpus_slot w !! i = None /\ batch_generator_slot w !! i = None.

(** The object [self] has been made. *)
Definition allocated (self : Configuration) (w : World) : Prop :=
  (instance self < next_instance w)%nat.

Definition is_fill_cache_call (c : Call) : bool :=
  match c with call_fill_cache _ => true | _ => false end.

(** A call that reads a corpus: of a corpus function or of [Corpus.load]. *)
Definition is_corpus_call (c : Call) : bool :=
  match c with
  | call_function _ _ | call_Corpus_load _ => true
  | _ => false
  end.

(** The file a call of the [LabeledExample] constructor opens. *)
Definition opened_file (c : Call) : option Path :=
  match c with
  | call_LabeledExample file => Some file
  | _ => None
  end.

(** [m] opens some first files of [files], in that order, and all of
    them when it returns. *)
Definition opens {A} (m : M A) (files : list Path) : Prop :=
  forall w, exists calls,
    trace (snd (m w)) = trace w ++ calls
    /\ omap opened_file calls `prefix_of` files
    /\ (forall a, fst (m w) = Returns a -> omap opened_file calls = files).

End Store.

(** ** Calls that raise *)

Section Failures.
Context {paths : PathLib} {imports : Imports}.

Definition raised {A} (o : Outcome A) : option Exn :=
  match o with
  | Returns _ => None
  | Raises e => Some e
  end.

(** The exception, if any, that the imported function, constructor or
    method raises when the call [c] is made after the calls [h]. *)
Definition exception_of (h : list Call) (c : Call) : option Exn :=
  match c with
  | call_timestamp => raised (timestamp_answer h)
  | call_function name directory => raised (function_answer h name directory)
  | call_Corpus_load file => raised (Corpus_load_answer h file)
  | call_LabeledSpectrogramBatchGenerator c directory =>
      raised (LabeledSpectrogramBatchGenerator_answer h c directory)
  | call_Wav2Letter arguments => raised (Wav2Letter_answer h arguments)
  | call_Wav2LetterWithCorpus wav2letter c directory =>
      raised (Wav2LetterWithCorpus_answer h wav2letter c directory)
  | call_train self logs nets batches => raised (train_answer h self logs nets batches)
  | call_fill_cache self => raised (fill_cache_answer h self)
  | call_print text => raised (print_answer h text)
  | call_LabeledExample file => raised (LabeledExample_answer h file)
  | call_z_normalized_transposed_spectrogram self =>
      raised (z_normalized_transposed_spectrogram_answer h self)
  | call_predict_single self spectrogram =>
      raised (predict_single_answer h self spectrogram)
  end.

(** Each of the [calls], made one after the other after the calls [h],
    returns. *)
Fixpoint all_return (h : list Call) (calls : list Call) : Prop :=
  match calls with
  | [] => True
  | c :: rest => exception_of h c = None /\ all_return (h ++ [c]) rest
  end.

(** [m] returns only when every call it made returned, and raises [e]
    only when its last call raised [e] and every call before it returned: it
    goes on after no call that raised, and hides no exception. *)
Definition stops_at_the_first_failure {A} (m : M A) : Prop :=
  forall w, exists calls,
    trace (snd (m w)) = trace w ++ calls
    /\ match fst (m w) with
       | Returns _ => all_return (trace w) calls
       | Raises e =>
           exists before c,
             calls = before ++ [c]
             /\ all_return (trace w) before
             /\ exception_of (trace w ++ before) c = Some e
       end.

End Failures.

(** ** The other workflows of the script *)

(** [train], [summarize_and_save_corpus], [test_best_model] and
    [record_plot_and_save] call further functions and methods.  Their calls
    are the steps below; a call of the part above is a step too.  A function
    or method answers from all the steps made so far. *)

(** An object whose class the script does not name. *)
Inductive PyObject := PyObject_at (address : nat).
Inductive Recorder := Recorder_at (address : nat).
Inductive LabeledExamplePlotter := LabeledExamplePlotter_at (address : nat).

Section Steps.
Context {paths : PathLib}.

Inductive Step :=
| earlier (c : Call)
| call_new_Wav2Letter (first_argument : Z) (allowed_characters : list chr)
| call_summary (self : Corpus)
| call_summarize_to_csv (self : Corpus) (file : Path)
| call_save (self : Corpus) (file : Path)
| call_print_object (o : PyObject)
| call_preview_batch (self : LabeledSpectrogramBatchGenerator)
| call_test_batches (self : LabeledSpectrogramBatchGenerator)
| call_expectations_vs_predictions (self : Wav2Letter) (batch : PyObject)
| call_loss (self : Wav2Letter) (batches : PyObject)
| call_format (o : PyObject)
| call_mkdir (directory : Path)
| call_Recorder
| call_record_to_file (self : Recorder) (file : Path)
| call_LabeledExamplePlotter (example : LabeledExample)
| call_save_spectrogram (self : LabeledExamplePlotter) (directory : Path).

(** Everything the script imports, answering from the steps made so far. *)
Class Library := {
  (* tools *)
  the_home_directory : Path;
  timestamp_reply : list Step -> Outcome string;
  mkdir_reply : list Step -> Path -> Outcome unit;
  (* grapheme_enconding *)
  the_english_frequent_characters : list chr;
  the_german_frequent_characters : list chr;
  (* english_corpus, german_corpus and other corpus functions *)
  function_reply : list Step -> string -> Path -> Outcome Corpus;
  (* corpus *)
  Corpus_load_reply : list Step -> Path -> Outcome Corpus;
  summary_reply : list Step -> Corpus -> Outcome PyObject;
  summarize_to_csv_reply : list Step -> Corpus -> Path -> Outcome unit;
  save_reply : list Step -> Corpus -> Path -> Outcome unit;
  LabeledSpectrogramBatchGenerator_reply :
    list Step -> Corpus -> Path -> Outcome LabeledSpectrogramBatchGenerator;
  fill_cache_reply : list Step -> LabeledSpectrogramBatchGenerator -> Outcome unit;
  preview_batch_reply : list Step -> LabeledSpectrogramBatchGenerator -> Outcome PyObject;
  test_batches_reply : list Step -> LabeledSpectrogramBatchGenerator -> Outcome PyObject;
  (* net, net_with_corpus *)
  Wav2Letter_reply : list Step -> Wav2LetterArguments -> Outcome Wav2Letter;
  new_Wav2Letter_reply : list Step -> Z -> list chr -> Outcome Wav2Letter;
  Wav2LetterWithCorpus_reply :
    list Step -> Wav2Letter -> Corpus -> Path -> Outcome Wav2LetterWithCorpus;
  train_reply : list Step -> Wav2LetterWithCorpus -> Path -> Path -> Z -> Outcome unit;
  predict_single_reply : list Step -> Wav2Letter -> Spectrogram -> Outcome string;
  expectations_vs_predictions_reply :
    list Step -> Wav2Letter -> PyObject -> Outcome PyObject;
  loss_reply : list Step -> Wav2Letter -> PyObject -> Outcome PyObject;
  (* labeled_example, labeled_example_plotter, recording *)
  LabeledExample_reply : list Step -> Path -> Outcome LabeledExample;
  z_normalized_transposed_spectrogram_reply :
    list Step -> LabeledExample -> Outcome Spectrogram;
  LabeledExamplePlotter_reply : list Step -> LabeledExample -> Outcome LabeledExamplePlotter;
  save_spectrogram_reply : list Step -> LabeledExamplePlotter -> Path -> Outcome unit;
  Recorder_reply : list Step -> Outcome Recorder;
  record_to_file_reply : list Step -> Recorder -> Path -> Outcome LabeledExample;
  (* builtins *)
  print_reply : list Step -> string -> Outcome unit;
  print_object_reply : list Step -> PyObject -> Outcome unit;
  format_reply : list Step -> PyObject -> Outcome string
}.

Context {library : Library}.

(** The imports of the part above, once the steps [before] were made:
    they answer from [before] and the calls made since. *)
Definition imports_after (before : list Step) : Imports :=
  let now (h : list Call) := before ++ map earlier h in
  {| home_directory := the_home_directory;
     timestamp_answer := fun h => timestamp_reply (now h);
     english_frequent_characters := the_english_frequent_characters;
     german_frequent_characters := the_german_frequent_characters;
     function_answer := fun h => function_reply (now h);
     Corpus_load_answer := fun h => Corpus_load_reply (now h);
     LabeledSpectrogramBatchGenerator_answer :=
       fun h => LabeledSpectrogramBatchGenerator_reply (now h);
     fill_cache_answer := fun h => fill_cache_reply (now h);
     Wav2Letter_answer := fun h => Wav2Letter_reply (now h);
     Wav2LetterWithCorpus_answer := fun h => Wav2LetterWithCorpus_reply (now h);
     train_answer := fun h => train_reply (now h);
     predict_single_answer := fun h => predict_single_reply (now h);
     LabeledExample_answer := fun h => LabeledExample_reply (now h);
     z_normalized_transposed_spectrogram_answer :=
       fun h => z_normalized_transposed_spectrogram_reply (now h);
     print_answer := fun h => print_reply (now h) |}.

(** The state of the script: the steps made, and the objects with what
    [@lazy] stored in them. *)
Record Script := {
  steps : list Step;
  next_object : nat;
  corpora : gmap nat Corpus;
  generators : gmap nat LabeledSpectrogramBatchGenerator
}.

Definition Run (A : Type) : Type := Script -> Outcome A * Script.

Definition and_then {A B} (m : Run A) (k : A -> Run B) : Run B :=
  fun s =>
    match m s with
    | (Returns a, s') => k a s'
    | (Raises e, s') => (Raises e, s')
    end.

Definition finish {A} (a : A) : Run A := fun s => (Returns a, s).

(** One of the further calls: it is recorded, then answered. *)
Definition step {A} (c : Step) (reply : list Step -> Outcome A) : Run A :=
  fun s =>
    (reply (steps s),
     {| steps := steps s ++ [c];
        next_object := next_object s;
        corpora := corpora s;
        generators := generators s |}).

(** A computation of the part above, run where the script is: its calls
    become steps, and the objects are as it leaves them. *)
Definition lift {A} (m : Imports -> M A) : Run A :=
  fun s =>
    let '(o, w) :=
      m (imports_after (steps s))
        {| trace := [];
           next_instance := next_object s;
           corpus_slot := corpora s;
           batch_generator_slot := generators s |} in
    (o, {| steps := steps s ++ map earlier (trace w);
           next_object := next_instance w;
           corpora := corpus_slot w;
           generators := batch_generator_slot w |}).

(** The objects of a script as a world with an empty trace, and back. *)
Definition world_of (s : Script) : World :=
  {| trace := [];
     next_instance := next_object s;
     corpus_slot := corpora s;
     batch_generator_slot := generators s |}.

Definition script_after (s : Script) (w : World) : Script :=
  {| steps := steps s ++ map earlier (trace w);
     next_object := next_instance w;
     corpora := corpus_slot w;
     generators := batch_generator_slot w |}.

(** [m] only adds steps. *)
Definition extends {A} (m : Run A) : Prop :=
  forall s, exists rest, steps (snd (m s)) = steps s ++ rest.

(** A step that has a model loaded from a checkpoint. *)
Definition loads_checkpoint (c : Step) : bool :=
  match c with
  | earlier (call_Wav2Letter _) => true
  | _ => false
  end.

Definition script_with (s : Script) (c : Step) : Script :=
  {| steps := steps s ++ [c];
     next_object := next_object s;
     corpora := corpora s;
     generators := generators s |}.

End Steps.

Notation "'let+' x ':=' m 'in' k" := (and_then m (fun x => k))
  (at level 10, x binder, m at level 100, k at level 200) : m_scope.

Section Workflows.
Context {paths : PathLib} {library : Library}.

(** The module constants, for the further calls. *)
#[local] Instance imports_at_start : Imports := imports_after [].

Definition training_slug : string := "-adam-small-learning-rate-complete-training-".

(** The run name of line 72, from the answer of [timestamp()]. *)
Definition training_run_name (stamp name : string) : string :=
  stamp +:+ training_slug +:+ name.

(** [train] (lines 66-81). *)
Definition train (self : Configuration) : Run unit :=
  let mel_frequency_count := 128 in
  let batches_per_epoch := 100 in
  let+ stamp := lift (fun _ => timestamp) in
  let run_name := training_run_name stamp (name self) in
  let+ wav2letter :=
    step (call_new_Wav2Letter mel_frequency_count (allowed_characters self))
      (fun h => new_Wav2Letter_reply h mel_frequency_count (allowed_characters self)) in
  let+ c := lift (fun _ => corpus self) in
  let+ wav2letter_with_corpus :=
    lift (fun _ =>
      external (call_Wav2LetterWithCorpus wav2letter c (spectrogram_cache_directory self))
        (fun h => Wav2LetterWithCorpus_answer h wav2letter c
                    (spectrogram_cache_directory self))) in
  lift (fun _ =>
    external
      (call_train wav2letter_with_corpus (tensorboard_log_base_directory // run_name)
         (nets_base_directory // run_name) batches_per_epoch)
      (fun h => train_answer h wav2letter_with_corpus
                  (tensorboard_log_base_directory // run_name)
                  (nets_base_directory // run_name) batches_per_epoch)).


(** [test_best_model] (lines 92-97); [use_ken_lm] is [None] when the
    argument is left out. *)
Definition test_best_model (self : Configuration) (use_ken_lm : option bool) : Run unit :=
  let use_ken_lm := default false use_ken_lm in
  let+ wav2letter :=
    lift (fun _ => load_best_wav2letter_model None None (Some (allowed_characters self))
                     (Some use_ken_lm)) in
  let+ g := lift (fun _ => batch_generator self) in
  let+ batch := step (call_preview_batch g) (fun h => preview_batch_reply h g) in
  let+ expectations :=
    step (call_expectations_vs_predictions wav2letter batch)
      (fun h => expectations_vs_predictions_reply h wav2letter batch) in
  let+ _ := step (call_print_object expectations)
              (fun h => print_object_reply h expectations) in
  let+ g' := lift (fun _ => batch_generator self) in
  let+ batches := step (call_test_batches g') (fun h => test_batches_reply h g') in
  let+ loss := step (call_loss wav2letter batches) (fun h => loss_reply h wav2letter batches) in
  let+ text := step (call_format loss) (fun h => format_reply h loss) in
  lift (fun _ => print ("Average loss: " +:+ text)).


(** The statement the module ends with (line 197):
    [Configuration.english().test_best_model()]. *)
Definition main : Run unit :=
  let+ self := lift (fun _ => english) in
  test_best_model self None.

End Workflows.

(** A sample library: every call returns, objects are numbered by the
    step at which they are made. *)
Definition sample_library : @Library parts :=
  {| the_home_directory := ["home"; "me"] : @Path parts;
     timestamp_reply := fun _ => Returns "20170316-180957";
     mkdir_reply := fun _ _ => Returns tt;
     the_english_frequent_characters := ["a"; "b"; "c"];
     the_german_frequent_characters := ["b"; "c"; "d"];
     function_reply := fun h _ _ => Returns (Corpus_at (length h));
     Corpus_load_reply := fun h _ => Returns (Corpus_at (length h));
     summary_reply := fun h _ => Returns (PyObject_at (length h));
     summarize_to_csv_reply := fun _ _ _ => Returns tt;
     save_reply := fun _ _ _ => Returns tt;
     LabeledSpectrogramBatchGenerator_reply := fun h _ _ =>
       Returns (LabeledSpectrogramBatchGenerator_at (length h));
     fill_cache_reply := fun _ _ => Returns tt;
     preview_batch_reply := fun h _ => Returns (PyObject_at (length h));
     test_batches_reply := fun h _ => Returns (PyObject_at (length h));
     Wav2Letter_reply := fun h _ => Returns (Wav2Letter_at (length h));
     new_Wav2Letter_reply := fun h _ _ => Returns (Wav2Letter_at (length h));
     Wav2LetterWithCorpus_reply := fun h _ _ _ => Returns (Wav2LetterWithCorpus_at (length h));
     train_reply := fun _ _ _ _ _ => Returns tt;
     predict_single_reply := fun _ _ _ => Returns "concord returned to its place";
     expectations_vs_predictions_reply := fun h _ _ => Returns (PyObject_at (length h));
     loss_reply := fun h _ _ => Returns (PyObject_at (length h));
     LabeledExample_reply := fun h _ => Returns (LabeledExample_at (length h));
     z_normalized_transposed_spectrogram_reply := fun h _ =>
       Returns (Spectrogram_at (length h));
     LabeledExamplePlotter_reply := fun h _ => Returns (LabeledExamplePlotter_at (length h));
     save_spectrogram_reply := fun _ _ _ => Returns tt;
     Recorder_reply := fun h => Returns (Recorder_at (length h));
     record_to_file_reply := fun h _ _ => Returns (LabeledExample_at (length h));
     print_reply := fun _ _ => Returns tt;
     print_object_reply := fun _ _ => Returns tt;
     format_reply := fun _ _ => Returns "0.25" |}.

(** The script after [Configuration.german()] made its object. *)
Definition sample_script : @Script parts :=
  {| steps := []; next_object := 1; corpora := ∅; generators := ∅ |}.

(** * Properties *)

(** ** Texts *)

Lemma append_cons (x : ascii) (a b : string) : String x a +:+ b = String x (a +:+ b).
Proof. reflexivity. Qed.

Lemma append_empty (b : string) : EmptyString +:+ b = b.
Proof. reflexivity. Qed.

Lemma append_assoc (a b c : string) : (a +:+ b) +:+ c = a +:+ b +:+ c.
Proof.
  induction a as [|x a IH]; [reflexivity|].
  rewrite !append_cons. by rewrite IH.
Qed.

Lemma occurs_append (x : ascii) (a b : string) :
  occurs x (a +:+ b) = occurs x a || occurs x b.
Proof.
  induction a as [|y a IH]; [reflexivity|].
  rewrite append_cons. simpl. rewrite IH. by rewrite orb_assoc.
Qed.

Lemma strip_prefix_append (sep rest : string) : strip_prefix sep (sep +:+ rest) = Some rest.
Proof.
  induction sep as [|a sep IH]; [by destruct rest|].
  rewrite append_cons. simpl. by rewrite Ascii.eqb_refl.
Qed.

Lemma partition_unfold (sep s : string) :
  partition sep s =
    match strip_prefix sep s with
    | Some rest => Some (EmptyString, rest)
    | None =>
        match s with
        | EmptyString => None
        | String c s' =>
            match partition sep s' with
            | Some (before, rest) => Some (String c before, rest)
            | None => None
            end
        end
    end.
Proof. destruct s; reflexivity. Qed.

Lemma rpartition_cons (sep s : string) (c : ascii) :
  rpartition sep (String c s) =
    match rpartition sep s with
    | Some (before, rest) => Some (String c before, rest)
    | None =>
        match strip_prefix sep (String c s) with
        | Some rest => Some (EmptyString, rest)
        | None => None
        end
    end.
Proof. reflexivity. Qed.

(** A separator whose second character [x] differs from its first and does
    not occur in [before] is first found right after [before]. *)
Lemma partition_first (c0 x : ascii) (sep' before rest : string) :
  x <> c0 ->
  occurs x before = false ->
  partition (String c0 (String x sep')) (before +:+ String c0 (String x sep') +:+ rest)
  = Some (before, rest).
Proof.
  intros Hx. induction before as [|b before IH]; intros Hocc.
  - rewrite append_empty, partition_unfold. by rewrite strip_prefix_append.
  - simpl in Hocc. apply orb_false_elim in Hocc as [Hb Hocc].
    rewrite append_cons, partition_unfold.
    assert (Hstrip : strip_prefix (String c0 (String x sep'))
                       (String b (before +:+ String c0 (String x sep') +:+ rest)) = None).
    { simpl. destruct (Ascii.eqb c0 b); [|reflexivity].
      destruct before as [|b' before].
      - rewrite append_empty, append_cons. simpl.
        destruct (Ascii.eqb_spec x c0); [congruence | reflexivity].
      - rewrite append_cons. simpl.
        simpl in Hocc. apply orb_false_elim in Hocc as [Hb' _].
        rewrite Ascii.eqb_sym. by rewrite Hb'. }
    rewrite Hstrip. by rewrite IH.
Qed.

(** No separator with second character [x] starts in a text whose tail
    lacks [x]. *)
Lemma rpartition_none (c0 x : ascii) (sep' s : string) (c : ascii) :
  occurs x s = false ->
  rpartition (String c0 (String x sep')) (String c s) = None.
Proof.
  revert c. induction s as [|b s IH]; intros c Hocc.
  - simpl. by destruct (Ascii.eqb c0 c).
  - simpl in Hocc. apply orb_false_elim in Hocc as [Hb Hocc].
    rewrite rpartition_cons. rewrite IH by assumption. simpl.
    destruct (Ascii.eqb c0 c); [|reflexivity].
    rewrite Ascii.eqb_sym. by rewrite Hb.
Qed.

(** A separator whose second character [x] occurs neither further in the
    separator nor in [rest] is last found right before [rest]. *)
Lemma rpartition_last (c0 x : ascii) (sep' before rest : string) :
  occurs x (sep' +:+ rest) = false ->
  rpartition (String c0 (String x sep')) (before +:+ String c0 (String x sep') +:+ rest)
  = Some (before, rest).
Proof.
  intros Hocc. induction before as [|b before IH].
  - rewrite append_empty.
    pose proof (strip_prefix_append (String c0 (String x sep')) rest) as Hstrip.
    rewrite !append_cons in Hstrip |- *.
    rewrite rpartition_cons. rewrite rpartition_none by assumption.
    by rewrite Hstrip.
  - rewrite append_cons, rpartition_cons. by rewrite IH.
Qed.

Lemma occurs_f_uint (d : Decimal.uint) : occurs "f" (NilEmpty.string_of_uint d) = false.
Proof. induction d; simpl; assumption || reflexivity. Qed.

Lemma occurs_f_str_of_int (n : Z) : occurs "f" (str_of_int n) = false.
Proof.
  unfold str_of_int. destruct (Z.to_int n) as [d|d]; simpl.
  - destruct d; try apply occurs_f_uint; reflexivity.
  - destruct d; try apply occurs_f_uint; reflexivity.
Qed.

Lemma int_of_str_of_int (n : Z) : int_of_str (str_of_int n) = Some n.
Proof.
  unfold int_of_str, str_of_int.
  rewrite NilZero.isi.
  - by rewrite DecimalZ.of_to.
  - destruct n; simpl; try discriminate.
    intros [= Hp]. by apply (DecimalPos.Unsigned.to_uint_nonnil p).
  - destruct n; simpl; try discriminate.
    intros [= Hp]. by apply (DecimalPos.Unsigned.to_uint_nonnil p).
Qed.

(** A transfer run name is read back when the timestamp holds no letter
    [a] (it is made of digits and dashes). *)
Lemma parse_transfer_run_name_correct (stamp name : string) (frozen_layer_count : Z) :
  occurs "a" stamp = false ->
  parse_transfer_run_name (transfer_run_name stamp name frozen_layer_count)
  = Some (stamp, name, frozen_layer_count).
Proof.
  intros Hstamp. unfold parse_transfer_run_name, transfer_run_name.
  unfold transfer_slug at 1 2.
  rewrite partition_first by (assumption || discriminate).
  unfold freeze_slug.
  rewrite rpartition_last.
  - by rewrite int_of_str_of_int.
  - rewrite occurs_append, occurs_f_str_of_int. reflexivity.
Qed.

Section Properties.
Context {paths : PathLib} {imports : Imports}.

(** ** The order on worlds *)

Lemma later_refl (w : World) : later w w.
Proof. unfold later. split; [reflexivity | split; reflexivity]. Qed.

Lemma later_trans (w1 w2 w3 : World) : later w1 w2 -> later w2 w3 -> later w1 w3.
Proof.
  intros (Ht & Hc & Hg) (Ht' & Hc' & Hg'). unfold later.
  split; [etrans; eassumption | split; etrans; eassumption].
Qed.

Lemma later_log (c : Call) (w : World) : later w (log c w).
Proof.
  unfold later, log; simpl.
  split; [by apply prefix_app_r | split; reflexivity].
Qed.

Lemma later_store_corpus (self : Configuration) (v : Corpus) (w : World) :
  corpus_slot w !! instance self = None -> later w (store_corpus self v w).
Proof.
  intros Hnone. unfold later, store_corpus; simpl.
  split; [reflexivity | split; [by apply insert_subseteq | reflexivity]].
Qed.

Lemma later_store_batch_generator (self : Configuration)
    (v : LabeledSpectrogramBatchGenerator) (w : World) :
  batch_generator_slot w !! instance self = None -> later w (store_batch_generator self v w).
Proof.
  intros Hnone. unfold later, store_batch_generator; simpl.
  split; [reflexivity | split; [reflexivity | by apply insert_subseteq]].
Qed.

Lemma later_corpus_slot (w w' : World) (i : nat) (c : Corpus) :
  later w w' -> corpus_slot w !! i = Some c -> corpus_slot w' !! i = Some c.
Proof. intros (_ & Hc & _) Hi. eapply lookup_weaken; eassumption. Qed.

Lemma later_batch_generator_slot (w w' : World) (i : nat)
    (g : LabeledSpectrogramBatchGenerator) :
  later w w' -> batch_generator_slot w !! i = Some g -> batch_generator_slot w' !! i = Some g.
Proof. intros (_ & _ & Hg) Hi. eapply lookup_weaken; eassumption. Qed.

(** ** Computations that return *)

Lemma bind_returns {A B} (m : M A) (k : A -> M B) (w w2 : World) (b : B) :
  bind m k w = (Returns b, w2) ->
  exists a w1, m w = (Returns a, w1) /\ k a w1 = (Returns b, w2).
Proof.
  unfold bind. destruct (m w) as [[a|e] w1]; [|discriminate].
  intros Hk. by exists a, w1.
Qed.

Lemma external_returns {A} (c : Call) (answer : list Call -> Outcome A) (w w1 : World) (a : A) :
  external c answer w = (Returns a, w1) -> answer (trace w) = Returns a /\ w1 = log c w.
Proof. unfold external. by intros [= -> <-]. Qed.

(** ** One invocation of a callable *)

Lemma invoke_run (f : Callable) (directory : Path) (w : World) :
  snd (invoke f directory w) = log (invocation f directory) w.
Proof. destruct f; reflexivity. Qed.

Lemma invoke_trace (f : Callable) (directory : Path) (w : World) :
  trace (snd (invoke f directory w)) = trace w ++ [invocation f directory].
Proof. rewrite invoke_run. reflexivity. Qed.

(** ** [@lazy] *)

Lemma lazy_stored {A} (slot : World -> option A) store (func : M A) (w : World) (v : A) :
  slot w = Some v -> lazy slot store func w = (Returns v, w).
Proof. intros Hs. unfold lazy. by rewrite Hs. Qed.

Lemma lazy_first {A} (slot : World -> option A) store (func : M A) (w : World) :
  slot w = None ->
  lazy slot store func w =
    match func w with
    | (Returns v, w') => (Returns v, store v w')
    | (Raises e, w') => (Raises e, w')
    end.
Proof. intros Hs. unfold lazy. by rewrite Hs. Qed.

Lemma corpus_stored (self : Configuration) (w : World) (c : Corpus) :
  corpus_slot w !! instance self = Some c -> corpus self w = (Returns c, w).
Proof. intros Hs. unfold corpus. by apply lazy_stored. Qed.

Lemma corpus_first (self : Configuration) (w : World) :
  corpus_slot w !! instance self = None ->
  corpus self w =
    match invoke (corpus_from_directory self) (corpus_directory self) w with
    | (Returns v, w') => (Returns v, store_corpus self v w')
    | (Raises e, w') => (Raises e, w')
    end.
Proof. intros Hs. unfold corpus. by apply lazy_first. Qed.

Lemma batch_generator_stored (self : Configuration) (w : World)
    (g : LabeledSpectrogramBatchGenerator) :
  batch_generator_slot w !! instance self = Some g -> batch_generator self w = (Returns g, w).
Proof. intros Hs. unfold batch_generator. by apply lazy_stored. Qed.

(** What [corpus] does to the world, first access or not. *)
Lemma corpus_world (self : Configuration) (w : World) :
  (exists c, corpus_slot w !! instance self = Some c /\ corpus self w = (Returns c, w))
  \/ (corpus_slot w !! instance self = None
      /\ trace (snd (corpus self w)) =
           trace w ++ [invocation (corpus_from_directory self) (corpus_directory self)]
      /\ batch_generator_slot (snd (corpus self w)) = batch_generator_slot w
      /\ later w (snd (corpus self w))).
Proof.
  destruct (corpus_slot w !! instance self) as [c|] eqn:Hs.
  - left. exists c. split; [reflexivity | by apply corpus_stored].
  - right. split; [reflexivity|]. rewrite corpus_first by assumption.
    pose proof (invoke_run (corpus_from_directory self) (corpus_directory self) w) as Hrun.
    destruct (invoke _ _ w) as [[v|e] w'] eqn:Hi; simpl in Hrun; subst w'; simpl.
    + split; [reflexivity | split; [reflexivity|]].
      eapply later_trans; [apply later_log|]. by apply later_store_corpus.
    + split; [reflexivity | split; [reflexivity | apply later_log]].
Qed.

Lemma corpus_later (self : Configuration) (w : World) : later w (snd (corpus self w)).
Proof.
  destruct (corpus_world self w) as [(c & _ & ->) | (_ & _ & _ & Hl)];
    [apply later_refl | exact Hl].
Qed.

Lemma corpus_keeps_batch_generator_slot (self : Configuration) (w : World) :
  batch_generator_slot (snd (corpus self w)) = batch_generator_slot w.
Proof.
  destruct (corpus_world self w) as [(c & _ & ->) | (_ & _ & Hg & _)];
    [reflexivity | exact Hg].
Qed.

Lemma corpus_returns_stored (self : Configuration) (w w0 : World) (c : Corpus) :
  corpus self w = (Returns c, w0) -> corpus_slot w0 !! instance self = Some c.
Proof.
  intros Hrun.
  destruct (corpus_slot w !! instance self) as [c'|] eqn:Hs.
  - rewrite (corpus_stored self w c' Hs) in Hrun. by inversion Hrun; subst.
  - rewrite corpus_first in Hrun by assumption.
    destruct (invoke _ _ w) as [[v|e] w'] eqn:Hi; inversion Hrun; subst.
    unfold store_corpus; simpl. apply lookup_insert_eq.
Qed.

(** ** Every operation leads to a later world *)

Lemma increasing_ret {A} (a : A) : increasing (ret a).
Proof. intros w. apply later_refl. Qed.

Lemma increasing_external {A} (c : Call) (answer : list Call -> Outcome A) :
  increasing (external c answer).
Proof. intros w. apply later_log. Qed.

Lemma increasing_bind {A B} (m : M A) (k : A -> M B) :
  increasing m -> (forall a, increasing (k a)) -> increasing (bind m k).
Proof.
  intros Hm Hk w. unfold bind. specialize (Hm w).
  destruct (m w) as [[a|e] w1]; simpl in *; [|exact Hm].
  eapply later_trans; [exact Hm | apply Hk].
Qed.

Lemma corpus_increasing (self : Configuration) : increasing (corpus self).
Proof. intros w. apply corpus_later. Qed.

Lemma batch_generator_increasing (self : Configuration) : increasing (batch_generator self).
Proof.
  intros w. unfold batch_generator, lazy.
  destruct (batch_generator_slot w !! instance self) as [g|] eqn:Hslot; [apply later_refl|].
  unfold bind.
  pose proof (corpus_later self w) as Hlater.
  pose proof (corpus_keeps_batch_generator_slot self w) as Hkeep.
  destruct (corpus self w) as [[c|e] w1]; simpl in *; [|exact Hlater].
  unfold external.
  destruct (LabeledSpectrogramBatchGenerator_answer (trace w1) c _) as [g|e]; simpl.
  - eapply later_trans; [exact Hlater|].
    eapply later_trans; [apply later_log|].
    apply later_store_batch_generator. simpl. by rewrite Hkeep.
  - eapply later_trans; [exact Hlater | apply later_log].
Qed.

Lemma fill_up_cache_increasing (self : Configuration) : increasing (fill_up_cache self).
Proof.
  apply increasing_bind; [apply batch_generator_increasing|].
  intros g. apply increasing_external.
Qed.

Lemma Configuration_new_increasing (name : string) (allowed_characters : list chr)
    (f : Callable) (corpus_directory spectrogram_cache_directory : option Path) :
  increasing (Configuration_new name allowed_characters f corpus_directory
                spectrogram_cache_directory).
Proof. intros w. split; [reflexivity | split; reflexivity]. Qed.

Lemma load_best_wav2letter_model_increasing (mel_frequency_count frozen_layer_count : option Z)
    (allowed_characters : option (list chr)) (use_ken_lm : option bool) :
  increasing (load_best_wav2letter_model mel_frequency_count frozen_layer_count
                allowed_characters use_ken_lm).
Proof. apply increasing_external. Qed.

Lemma train_transfer_increasing (self : Configuration) (trainable_layer_count : option Z) :
  increasing (train_transfer_from_best_english_model self trainable_layer_count).
Proof.
  unfold train_transfer_from_best_english_model.
  apply increasing_bind; [apply increasing_external|]. intros stamp.
  apply increasing_bind; [apply load_best_wav2letter_model_increasing|]. intros wav2letter.
  apply increasing_bind; [apply corpus_increasing|]. intros c.
  apply increasing_bind; [apply increasing_external|]. intros wwc.
  apply increasing_external.
Qed.

Lemma print_prediction_from_file_increasing (wav2letter : Wav2Letter)
    (file_name description : string) :
  increasing (print_prediction_from_file wav2letter file_name description).
Proof.
  unfold print_prediction_from_file, print_prediction, predict, print.
  repeat (apply increasing_bind; [|intros ?]); apply increasing_external.
Qed.

Lemma predict_recording_increasing : increasing predict_recording.
Proof.
  unfold predict_recording, print_example_predictions, print.
  apply increasing_bind; [apply load_best_wav2letter_model_increasing|]. intros wav2letter.
  repeat (apply increasing_bind; [|intros ?]);
    apply increasing_external || apply print_prediction_from_file_increasing.
Qed.

(** ** Construction *)

Lemma Configuration_new_run (name : string) (allowed_characters : list chr)
    (f : Callable) (corpus_directory spectrogram_cache_directory : option Path) (w : World) :
  exists w',
    Configuration_new name allowed_characters f corpus_directory spectrogram_cache_directory w
    = (Returns (Configuration_init (next_instance w) name allowed_characters f
                  corpus_directory spectrogram_cache_directory), w')
    /\ trace w' = trace w
    /\ corpus_slot w' = corpus_slot w
    /\ batch_generator_slot w' = batch_generator_slot w.
Proof. eexists. split; [reflexivity | repeat split]. Qed.

(** C7: a Configuration constructed without a directory argument has the
    corpus directory [<corpus base>/<name>] and the spectrogram cache
    directory [<spectrogram-cache base>/<name>]; a directory that is given is
    used unchanged, whether or not the other one is given, so that two
    Configurations of one name with different given directories have
    different directories.  Each directory is resolved on its own: the
    corpus directory whatever the cache argument is, the cache directory
    whatever the corpus argument is. *)
Theorem Configuration_directories (name : string) (allowed_characters : list chr)
    (f : Callable) (w : World) :
  (forall cache, exists self w',
      Configuration_new name allowed_characters f None cache w = (Returns self, w')
      /\ corpus_directory self = corpus_base_directory // name
      /\ (cache = None ->
          spectrogram_cache_directory self = spectrogram_cache_base_directory // name)
      /\ (forall given, cache = Some given -> spectrogram_cache_directory self = given))
  /\ (forall dir, exists self w',
      Configuration_new name allowed_characters f dir None w = (Returns self, w')
      /\ spectrogram_cache_directory self = spectrogram_cache_base_directory // name
      /\ (dir = None -> corpus_directory self = corpus_base_directory // name)
      /\ (forall given, dir = Some given -> corpus_directory self = given))
  /\ (forall dir cache, exists self w',
      Configuration_new name allowed_characters f (Some dir) (Some cache) w = (Returns self, w')
      /\ corpus_directory self = dir
      /\ spectrogram_cache_directory self = cache)
  /\ (forall dir cache self w',
      Configuration_new name allowed_characters f dir cache w = (Returns self, w') ->
      (forall given, dir = Some given -> corpus_directory self = given)
      /\ (forall given, cache = Some given -> spectrogram_cache_directory self = given)
      /\ (dir = None -> corpus_directory self = corpus_base_directory // name)
      /\ (cache = None ->
          spectrogram_cache_directory self = spectrogram_cache_base_directory // name))
  /\ (forall dir1 cache1 dir2 cache2 chars2 f2 w2 self1 self2 w1' w2',
      Configuration_new name allowed_characters f (Some dir1) (Some cache1) w = (Returns self1, w1') ->
      Configuration_new name chars2 f2 (Some dir2) (Some cache2) w2 = (Returns self2, w2') ->
      (dir1 <> dir2 -> corpus_directory self1 <> corpus_directory self2)
      /\ (cache1 <> cache2 ->
          spectrogram_cache_directory self1 <> spectrogram_cache_directory self2))
  /\ (forall dir1 dir2 cache1 cache2 chars2 f2 w2 self1 self2 w1' w2',
      Configuration_new name allowed_characters f (Some dir1) cache1 w = (Returns self1, w1') ->
      Configuration_new name chars2 f2 (Some dir2) cache2 w2 = (Returns self2, w2') ->
      dir1 <> dir2 -> corpus_directory self1 <> corpus_directory self2)
  /\ (forall dir1 dir2 cache1 cache2 chars2 f2 w2 self1 self2 w1' w2',
      Configuration_new name allowed_characters f dir1 (Some cache1) w = (Returns self1, w1') ->
      Configuration_new name chars2 f2 dir2 (Some cache2) w2 = (Returns self2, w2') ->
      cache1 <> cache2 ->
      spectrogram_cache_directory self1 <> spectrogram_cache_directory self2).
Proof.
  split; [|split; [|split; [|split; [|split; [|split]]]]].
  - intros cache. do 2 eexists. split; [reflexivity|]. split; [reflexivity|].
    split; [by intros -> | by intros given ->].
  - intros dir. do 2 eexists. split; [reflexivity|]. split; [reflexivity|].
    split; [by intros -> | by intros given ->].
  - intros dir cache. do 2 eexists. repeat split; reflexivity.
  - intros dir cache self w' Hnew. inversion Hnew; subst; simpl.
    split; [by intros given -> |]. split; [by intros given -> |].
    split; by intros ->.
  - intros dir1 cache1 dir2 cache2 chars2 f2 w2 self1 self2 w1' w2' Hnew1 Hnew2.
    inversion Hnew1; inversion Hnew2; subst; simpl.
    split; intros Hne; exact Hne.
  - intros dir1 dir2 cache1 cache2 chars2 f2 w2 self1 self2 w1' w2' Hnew1 Hnew2 Hne.
    inversion Hnew1; inversion Hnew2; subst; simpl. exact Hne.
  - intros dir1 dir2 cache1 cache2 chars2 f2 w2 self1 self2 w1' w2' Hnew1 Hnew2 Hne.
    inversion Hnew1; inversion Hnew2; subst; simpl. exact Hne.
Qed.

(** ** Memoisation *)


(** C8: when the configured function raises, [corpus] raises the same
    exception after that one call, nothing is stored, and the next access
    calls the function again. *)
Theorem corpus_failure_is_not_memoized (self : Configuration) (w w1 : World) (e : Exn) :
  corpus_slot w !! instance self = None ->
  invoke (corpus_from_directory self) (corpus_directory self) w = (Raises e, w1) ->
  corpus self w = (Raises e, w1)
  /\ trace w1 = trace w ++ [invocation (corpus_from_directory self) (corpus_directory self)]
  /\ corpus_slot w1 !! instance self = None
  /\ corpus self w1 =
       match invoke (corpus_from_directory self) (corpus_directory self) w1 with
       | (Returns v, w2) => (Returns v, store_corpus self v w2)
       | (Raises e', w2) => (Raises e', w2)
       end
  /\ trace (snd (corpus self w1)) =
       trace w1 ++ [invocation (corpus_from_directory self) (corpus_directory self)].
Proof.
  intros Hnone Hraise.
  pose proof (invoke_run (corpus_from_directory self) (corpus_directory self) w) as Hrun.
  rewrite Hraise in Hrun. simpl in Hrun. subst w1.
  assert (Hnone1 : corpus_slot (log (invocation (corpus_from_directory self)
                      (corpus_directory self)) w) !! instance self = None) by exact Hnone.
  split; [rewrite corpus_first by assumption; by rewrite Hraise|].
  split; [reflexivity|]. split; [exact Hnone1|].
  split; [by apply corpus_first|].
  destruct (corpus_world self (log (invocation (corpus_from_directory self)
              (corpus_directory self)) w)) as [(c & Hsome & _) | (_ & Ht & _)].
  - rewrite Hnone1 in Hsome. discriminate.
  - exact Ht.
Qed.

(** ** The checkpoint *)

(** C6: whatever its arguments, [load_best_wav2letter_model] makes one
    call, of the [Wav2Letter] constructor, and asks it to load the
    directory ["20170316-180957-adam-small-learning-rate-complete-95"] under
    the nets directory, epoch 1192, trained on
    [english_frequent_characters]. *)
Theorem load_best_wav2letter_model_checkpoint (mel_frequency_count frozen_layer_count : option Z)
    (allowed_characters : option (list chr)) (use_ken_lm : option bool) (w : World) :
  exists arguments,
    load_best_wav2letter_model mel_frequency_count frozen_layer_count allowed_characters
      use_ken_lm w
    = (Wav2Letter_answer (trace w) arguments, log (call_Wav2Letter arguments) w)
    /\ arg_load_model_from_directory arguments
       = home_directory // "speechless-data" // "nets"
           // "20170316-180957-adam-small-learning-rate-complete-95"
    /\ arg_load_epoch arguments = 1192
    /\ arg_allowed_characters_for_loaded_model arguments = english_frequent_characters.
Proof. eexists. split; [reflexivity | repeat split]. Qed.

(** ** German *)

Lemma corpus_of_cached (self : Configuration) (w : World) :
  corpus_from_directory self = load_cached_corpus_function ->
  corpus_slot w !! instance self = None ->
  fst (corpus self w) = Corpus_load_answer (trace w) (corpus_directory self // "corpus.csv")
  /\ trace (snd (corpus self w)) =
       trace w ++ [call_Corpus_load (corpus_directory self // "corpus.csv")].
Proof.
  intros Hf Hnone. rewrite corpus_first by assumption. rewrite Hf. simpl.
  unfold load_cached_corpus, Corpus_load, external.
  destruct (Corpus_load_answer (trace w) _); split; reflexivity.
Qed.

Lemma corpus_of_imported (self : Configuration) (function : string) (w : World) :
  corpus_from_directory self = imported_function function ->
  corpus_slot w !! instance self = None ->
  fst (corpus self w) = function_answer (trace w) function (corpus_directory self)
  /\ trace (snd (corpus self w)) = trace w ++ [call_function function (corpus_directory self)].
Proof.
  intros Hf Hnone. rewrite corpus_first by assumption. rewrite Hf. simpl.
  unfold external.
  destruct (function_answer (trace w) _ _); split; reflexivity.
Qed.

(** C10: [Configuration.german()], with [from_cached] left out or true,
    gives a Configuration whose corpus is read by [Corpus.load] from
    ["corpus.csv"] in its corpus directory, with no call of
    [german_corpus]; with [from_cached=False] the corpus comes from
    [german_corpus] called on the corpus directory. *)
Theorem german_corpus_source (w : World) :
  (forall from_cached, from_cached = None \/ from_cached = Some true ->
     exists self w',
       german from_cached w = (Returns self, w')
       /\ corpus_directory self = corpus_base_directory // "German"
       /\ forall w2, corpus_slot w2 !! instance self = None ->
            fst (corpus self w2)
            = Corpus_load_answer (trace w2) (corpus_base_directory // "German" // "corpus.csv")
            /\ trace (snd (corpus self w2))
               = trace w2 ++ [call_Corpus_load
                                (corpus_base_directory // "German" // "corpus.csv")])
  /\ (exists self w',
       german (Some false) w = (Returns self, w')
       /\ corpus_directory self = corpus_base_directory // "German"
       /\ forall w2, corpus_slot w2 !! instance self = None ->
            fst (corpus self w2)
            = function_answer (trace w2) "german_corpus" (corpus_base_directory // "German")
            /\ trace (snd (corpus self w2))
               = trace w2 ++ [call_function "german_corpus"
                                (corpus_base_directory // "German")]).
Proof.
  split.
  - intros from_cached [-> | ->]; do 2 eexists;
      (split; [reflexivity | split; [reflexivity|]]);
      intros w2 Hnone; by apply corpus_of_cached.
  - do 2 eexists. split; [reflexivity | split; [reflexivity|]].
    intros w2 Hnone. by apply corpus_of_imported.
Qed.

(** ** The output layer for another alphabet *)

Section OutputLayer.
Import AlphabetMapping.
Context {Row : Type} {net : Net Row}.

Lemma index_of_lookup (c : chr) (alphabet : list chr) (i : nat) :
  index_of c alphabet = Some i -> alphabet !! i = Some c.
Proof.
  revert i. induction alphabet as [|x rest IH]; intros i; simpl; [discriminate|].
  destruct (String.eqb_spec x c) as [->|Hne].
  - intros [= <-]. reflexivity.
  - destruct (index_of c rest) as [k|]; simpl; [|discriminate].
    intros [= <-]. simpl. by apply IH.
Qed.

Lemma index_of_None (c : chr) (alphabet : list chr) :
  index_of c alphabet = None <-> c ∉ alphabet.
Proof.
  induction alphabet as [|x rest IH]; simpl.
  - split; [intros _; apply not_elem_of_nil | reflexivity].
  - rewrite not_elem_of_cons. destruct (String.eqb_spec x c) as [->|Hne].
    + split; [discriminate | intros [Hc _]; by destruct Hc].
    + destruct (index_of c rest) as [k|]; simpl.
      * split; [discriminate | intros [_ Hc]; by apply IH in Hc].
      * split; [intros _; split; [congruence | by apply IH] | reflexivity].
Qed.

Lemma index_of_elem (c : chr) (alphabet : list chr) :
  c ∈ alphabet -> exists i, index_of c alphabet = Some i.
Proof.
  intros Hin. destruct (index_of c alphabet) as [i|] eqn:Hi; [by exists i|].
  by apply index_of_None in Hi.
Qed.

Lemma transfer_output_weights_lookup (trained target : list chr) (checkpoint : list Row)
    (fresh : nat -> Row) (j : nat) :
  transfer_output_weights Row trained target checkpoint fresh !! j
  = transfer_symbol Row trained checkpoint fresh j <$> target !! j.
Proof. unfold transfer_output_weights. apply list_lookup_imap. Qed.

(** C1: with a constructor of [net.Wav2Letter] that transfers the output
    layer as section 4.3 says, the model that [load_best_wav2letter_model]
    returns for a target alphabet is the model the constructor answered,
    asked for that target alphabet and for the fixed checkpoint trained on
    [english_frequent_characters].  In the output layer of that returned
    model, a symbol of both alphabets has the checkpoint's row of that
    symbol, wherever the symbol stands in either alphabet, a symbol of the
    target alphabet alone has a freshly initialised row, and no row is taken
    over for a symbol that the target alphabet lacks. *)
Theorem output_weights_follow_symbols
    (mel_frequency_count frozen_layer_count : option Z) (target : list chr)
    (use_ken_lm : option bool) (w w' : World) (model : Wav2Letter) :
  let checkpoint :=
    checkpoint_output_layer (nets_base_directory // checkpoint_directory_name) 1192 in
  constructor_transfers_by_symbol ->
  length checkpoint = length english_frequent_characters ->
  load_best_wav2letter_model mel_frequency_count frozen_layer_count (Some target)
    use_ken_lm w = (Returns model, w') ->
  let layer := output_layer (trace w') model in
  (exists arguments,
      Wav2Letter_answer (trace w) arguments = Returns model
      /\ w' = log (call_Wav2Letter arguments) w
      /\ arg_allowed_characters arguments = target
      /\ arg_allowed_characters_for_loaded_model arguments = english_frequent_characters
      /\ arg_load_model_from_directory arguments
         = nets_base_directory // checkpoint_directory_name
      /\ arg_load_epoch arguments = 1192)
  /\ length layer = length target
  /\ (forall s j, s ∈ english_frequent_characters -> target !! j = Some s ->
        exists i row,
          index_of s english_frequent_characters = Some i
          /\ english_frequent_characters !! i = Some s
          /\ checkpoint !! i = Some row
          /\ layer !! j = Some (row, false))
  /\ (forall s j, s ∉ english_frequent_characters -> target !! j = Some s ->
        layer !! j = Some (fresh_row j, true))
  /\ (forall j row,
        layer !! j = Some (row, false) ->
        exists s i,
          target !! j = Some s
          /\ english_frequent_characters !! i = Some s
          /\ checkpoint !! i = Some row).
Proof.
  intros checkpoint Hnet Hlen Hrun layer.
  unfold load_best_wav2letter_model in Hrun.
  apply external_returns in Hrun as [Hmodel ->].
  assert (Hlayer : layer = transfer_output_weights Row english_frequent_characters target
                             checkpoint fresh_row).
  { unfold layer. etransitivity; [exact (Hnet _ _ _ Hmodel) | reflexivity]. }
  clearbody layer. subst layer.
  split; [eexists; split; [exact Hmodel|]; repeat split|].
  split; [unfold transfer_output_weights; by rewrite length_imap|].
  split; [|split].
  - intros s j Hin Hj.
    destruct (index_of_elem s _ Hin) as [i Hi].
    pose proof (index_of_lookup _ _ _ Hi) as Hti.
    destruct (lookup_lt_is_Some_2 checkpoint i) as [row Hrow].
    { rewrite Hlen. eapply lookup_lt_Some; eassumption. }
    exists i, row. repeat split; try assumption.
    rewrite transfer_output_weights_lookup, Hj. simpl.
    unfold transfer_symbol. rewrite Hi. simpl. by rewrite Hrow.
  - intros s j Hnot Hj.
    rewrite transfer_output_weights_lookup, Hj. simpl.
    unfold transfer_symbol. apply index_of_None in Hnot. by rewrite Hnot.
  - intros j row. rewrite transfer_output_weights_lookup.
    destruct (target !! j) as [s|] eqn:Hj; simpl; [|discriminate].
    unfold transfer_symbol.
    destruct (index_of s english_frequent_characters) as [i|] eqn:Hi; simpl; [|discriminate].
    destruct (checkpoint !! i) as [row'|] eqn:Hrow; [|discriminate].
    intros [= <-]. exists s, i. repeat split; try assumption.
    by apply index_of_lookup.
Qed.

End OutputLayer.

(** ** Transfer training *)

(** Every run of [train_transfer_from_best_english_model] is one of the
    runs of [transfer_run]. *)
Lemma train_transfer_run (self : Configuration) (trainable_layer_count : option Z)
    (w : World) :
  transfer_run self trainable_layer_count w
    (train_transfer_from_best_english_model self trainable_layer_count w).
Proof.
  unfold train_transfer_from_best_english_model, load_best_wav2letter_model, timestamp.
  unfold bind, external.
  destruct (timestamp_answer (trace w)) as [stamp|e] eqn:Hstamp;
    [|by apply stops_at_timestamp].
  destruct (Wav2Letter_answer _ _) as [wav2letter|e] eqn:Hmodel;
    [|by eapply stops_at_model].
  destruct (corpus self _) as [[c|e] w2] eqn:Hcorpus;
    [|by eapply stops_at_corpus].
  destruct (Wav2LetterWithCorpus_answer _ _ _ _) as [wwc|e] eqn:Hwrapper;
    [|by eapply stops_at_wrapper].
  by eapply reaches_train.
Qed.

(** The calls [corpus] adds are not calls of [train]. *)
Lemma corpus_calls (self : Configuration) (w : World) :
  exists calls,
    trace (snd (corpus self w)) = trace w ++ calls
    /\ Forall (fun c => is_train_call c = false) calls
    /\ (forall e, fst (corpus self w) = Raises e -> raised_by_import e).
Proof.
  destruct (corpus_world self w) as [(c & _ & ->) | (Hnone & Ht & _)].
  - exists []. simpl. split; [by rewrite app_nil_r | split; [constructor | discriminate]].
  - eexists. split; [exact Ht|]. split.
    + constructor; [by destruct (corpus_from_directory self) | constructor].
    + intros e. rewrite corpus_first by assumption.
      destruct (corpus_from_directory self) as [function|]; simpl;
        unfold load_cached_corpus, Corpus_load, external.
      * destruct (function_answer (trace w) function (corpus_directory self)) eqn:Ha;
          simpl; intros [= ->].
        exists (trace w). right; right; left. eauto.
      * destruct (Corpus_load_answer (trace w) (corpus_directory self // "corpus.csv")) eqn:Ha;
          simpl; intros [= ->].
        exists (trace w). right; right; right; left. eauto.
Qed.

(** The calls of a run whose [timestamp()] returned: the timestamp, the
    model, what [corpus] calls, and then at most the wrapper and [train]. *)
Lemma transfer_run_calls (self : Configuration) (trainable_layer_count : option Z)
    (w : World) (r : Outcome unit * World) (stamp : string) :
  transfer_run self trainable_layer_count w r ->
  timestamp_answer (trace w) = Returns stamp ->
  let frozen := 11 - default 1 trainable_layer_count in
  let logs := tensorboard_log_base_directory // transfer_run_name stamp (name self) frozen in
  let nets := nets_base_directory // transfer_run_name stamp (name self) frozen in
  exists calls tail,
    trace (snd r)
    = trace w ++ call_timestamp :: call_Wav2Letter (transfer_arguments self frozen)
                  :: calls ++ tail
    /\ Forall (fun c => is_train_call c = false) calls
    /\ (tail = []
        \/ (exists m c, tail = [call_Wav2LetterWithCorpus m c (spectrogram_cache_directory self)])
        \/ (exists m c wwc,
              tail = [call_Wav2LetterWithCorpus m c (spectrogram_cache_directory self);
                      call_train wwc logs nets 100]))
    /\ (forall o, fst r = Returns o ->
          exists m c wwc,
            tail = [call_Wav2LetterWithCorpus m c (spectrogram_cache_directory self);
                    call_train wwc logs nets 100]).
Proof.
  intros Hrun Hstamp; cbv zeta.
  destruct Hrun as [e He | stamp' e arguments Hs Hm | stamp' m e w2 arguments Hs Hm Hc
                   | stamp' m c e w2 arguments Hs Hm Hc Hw
                   | stamp' m c wwc w2 frozen arguments logs nets w3 Hs Hm Hc Hw];
    [congruence | | | |].
  - exists [], []. simpl. split; [by rewrite <- app_assoc|].
    split; [constructor | split; [by left | discriminate]].
  - destruct (corpus_calls self (log (call_Wav2Letter arguments) (log call_timestamp w)))
      as (calls & Ht & Hcalls & _).
    rewrite Hc in Ht. simpl in Ht.
    exists calls, []. simpl. split.
    + rewrite Ht, app_nil_r. by rewrite <- !app_assoc.
    + split; [assumption | split; [by left | discriminate]].
  - destruct (corpus_calls self (log (call_Wav2Letter arguments) (log call_timestamp w)))
      as (calls & Ht & Hcalls & _).
    rewrite Hc in Ht. simpl in Ht.
    exists calls, [call_Wav2LetterWithCorpus m c (spectrogram_cache_directory self)].
    simpl. split.
    + rewrite Ht. by rewrite <- !app_assoc.
    + split; [assumption | split; [right; left; eauto | discriminate]].
  - destruct (corpus_calls self (log (call_Wav2Letter arguments) (log call_timestamp w)))
      as (calls & Ht & Hcalls & _).
    rewrite Hc in Ht. simpl in Ht.
    assert (stamp' = stamp) as -> by congruence.
    exists calls, [call_Wav2LetterWithCorpus m c (spectrogram_cache_directory self);
                   call_train wwc logs nets 100].
    simpl. split.
    + rewrite Ht. by rewrite <- !app_assoc.
    + split; [assumption | split; [right; right; eauto | intros o _; eauto]].
Qed.

(** A run raises only what an imported call has raised. *)
Lemma transfer_run_raises (self : Configuration) (trainable_layer_count : option Z)
    (w : World) (r : Outcome unit * World) (e : Exn) :
  transfer_run self trainable_layer_count w r -> fst r = Raises e -> raised_by_import e.
Proof.
  intros Hrun.
  destruct Hrun as [e' He | stamp' e' arguments Hs Hm | stamp' m e' w2 arguments Hs Hm Hc
                   | stamp' m c e' w2 arguments Hs Hm Hc Hw
                   | stamp' m c wwc w2 frozen arguments logs nets w3 Hs Hm Hc Hw];
    simpl; intros Hr.
  - inversion Hr; subst. exists (trace w). by left.
  - inversion Hr; subst. eexists. right; left. eauto.
  - inversion Hr; subst.
    destruct (corpus_calls self (log (call_Wav2Letter arguments) (log call_timestamp w)))
      as (_ & _ & _ & Hraise).
    apply Hraise. by rewrite Hc.
  - inversion Hr; subst. eexists. do 4 right. left. eauto.
  - eexists. do 5 right. eauto.
Qed.

Lemma transfer_run_name_suffix (stamp name : string) (frozen : Z) :
  transfer_run_name stamp name frozen
  = (stamp +:+ transfer_slug +:+ name) +:+ "-freeze-" +:+ str_of_int frozen.
Proof. unfold transfer_run_name, freeze_slug. by rewrite !append_assoc. Qed.

(** Where a run trained: among the calls after the model was asked for,
    [train] is called with the two directories of the run name only. *)
Lemma transfer_run_train (self : Configuration) (trainable_layer_count : option Z)
    (w : World) (stamp : string) (calls tail : list Call) :
  let frozen := 11 - default 1 trainable_layer_count in
  let logs := tensorboard_log_base_directory // transfer_run_name stamp (name self) frozen in
  let nets := nets_base_directory // transfer_run_name stamp (name self) frozen in
  Forall (fun c => is_train_call c = false) calls ->
  (tail = []
   \/ (exists m c, tail = [call_Wav2LetterWithCorpus m c (spectrogram_cache_directory self)])
   \/ (exists m c wwc,
         tail = [call_Wav2LetterWithCorpus m c (spectrogram_cache_directory self);
                 call_train wwc logs nets 100])) ->
  forall wwc logs' nets' batches,
    call_train wwc logs' nets' batches ∈ calls ++ tail ->
    logs' = logs /\ nets' = nets /\ batches = 100.
Proof.
  intros frozen logs nets Hcalls Htail wwc logs' nets' batches Hin.
  apply elem_of_app in Hin as [Hin | Hin].
  - rewrite Forall_forall in Hcalls. apply Hcalls in Hin. discriminate.
  - destruct Htail as [-> | [(m & c & ->) | (m & c & wwc' & ->)]].
    + by apply elem_of_nil in Hin.
    + apply list_elem_of_singleton in Hin. discriminate.
    + apply elem_of_cons in Hin as [Hin | Hin]; [discriminate|].
      apply list_elem_of_singleton in Hin. by inversion Hin.
Qed.

(** C5: transfer training asks [load_best_wav2letter_model] for a model
    with [11 - trainable_layer_count] frozen layers, and the run name under
    which it trains ends with ["-freeze-"] and that number. *)
Theorem transfer_freezes_the_other_layers (self : Configuration)
    (trainable_layer_count : option Z) (w : World) (stamp : string) :
  timestamp_answer (trace w) = Returns stamp ->
  let frozen := 11 - default 1 trainable_layer_count in
  let run := train_transfer_from_best_english_model self trainable_layer_count w in
  exists arguments rest,
    trace (snd run) = trace w ++ call_timestamp :: call_Wav2Letter arguments :: rest
    /\ snd (load_best_wav2letter_model (Some 128) (Some frozen)
              (Some (allowed_characters self)) None (log call_timestamp w))
       = log (call_Wav2Letter arguments) (log call_timestamp w)
    /\ arg_frozen_layer_count arguments = frozen
    /\ (forall wwc logs nets batches,
          call_train wwc logs nets batches ∈ rest ->
          exists run_name prefix,
            run_name = prefix +:+ "-freeze-" +:+ str_of_int frozen
            /\ logs = tensorboard_log_base_directory // run_name
            /\ nets = nets_base_directory // run_name)
    /\ (forall o, fst run = Returns o ->
          exists wwc logs nets, last rest = Some (call_train wwc logs nets 100)).
Proof.
  intros Hstamp frozen run.
  destruct (transfer_run_calls self trainable_layer_count w run stamp
              (train_transfer_run self trainable_layer_count w) Hstamp)
    as (calls & tail & Htrace & Hcalls & Htail & Hreturns).
  exists (transfer_arguments self frozen), (calls ++ tail).
  split; [exact Htrace|]. split; [reflexivity|]. split; [reflexivity|]. split.
  - intros wwc logs nets batches Hin.
    destruct (transfer_run_train self trainable_layer_count w stamp calls tail
                Hcalls Htail wwc logs nets batches Hin) as (-> & -> & _).
    exists (transfer_run_name stamp (name self) frozen), (stamp +:+ transfer_slug +:+ name self).
    split; [apply transfer_run_name_suffix | split; reflexivity].
  - intros o Ho. destruct (Hreturns o Ho) as (m & c & wwc & ->).
    do 3 eexists. rewrite last_app. reflexivity.
Qed.

(** C2, as the code has it: transfer training does not check
    [trainable_layer_count].  Whatever the count, it first calls
    [timestamp()] and, when that returns, asks for the model of the
    checkpoint with [11 - trainable_layer_count] frozen layers; it raises only
    what an imported call raises. *)
Theorem transfer_does_not_check_the_layer_count (self : Configuration)
    (trainable_layer_count : option Z) (w : World) :
  let run := train_transfer_from_best_english_model self trainable_layer_count w in
  (exists rest, trace (snd run) = trace w ++ call_timestamp :: rest)
  /\ (forall stamp, timestamp_answer (trace w) = Returns stamp ->
        exists arguments rest,
          trace (snd run) = trace w ++ call_timestamp :: call_Wav2Letter arguments :: rest
          /\ arg_frozen_layer_count arguments = 11 - default 1 trainable_layer_count
          /\ arg_load_model_from_directory arguments
             = nets_base_directory // checkpoint_directory_name)
  /\ (forall e, fst run = Raises e -> raised_by_import e).
Proof.
  intros run.
  pose proof (train_transfer_run self trainable_layer_count w) as Hrun. fold run in Hrun.
  split; [|split].
  - destruct (timestamp_answer (trace w)) as [stamp|e] eqn:Hstamp.
    + destruct (transfer_run_calls self trainable_layer_count w run stamp Hrun Hstamp)
        as (calls & tail & Htrace & _).
      eexists. exact Htrace.
    + inversion Hrun; subst; try congruence. exists []. reflexivity.
  - intros stamp Hstamp.
    destruct (transfer_run_calls self trainable_layer_count w run stamp Hrun Hstamp)
      as (calls & tail & Htrace & _).
    do 2 eexists. split; [exact Htrace | split; reflexivity].
  - intros e He. eapply transfer_run_raises; eassumption.
Qed.

(** C3, as the code has it: the name under which transfer training runs
    is made of the timestamp, the name of the Configuration it trains and
    the frozen layer count, and these three are read back from it when the
    timestamp holds no letter [a]. *)
Theorem transfer_run_name_is_read_back (self : Configuration)
    (trainable_layer_count : option Z) (w : World) (stamp : string) :
  timestamp_answer (trace w) = Returns stamp ->
  occurs "a" stamp = false ->
  let frozen := 11 - default 1 trainable_layer_count in
  let run := train_transfer_from_best_english_model self trainable_layer_count w in
  exists run_name,
    parse_transfer_run_name run_name = Some (stamp, name self, frozen)
    /\ (forall wwc logs nets batches,
          call_train wwc logs nets batches ∈ calls_between w (snd run) ->
          logs = tensorboard_log_base_directory // run_name
          /\ nets = nets_base_directory // run_name)
    /\ (forall o, fst run = Returns o ->
          exists wwc,
            last (trace (snd run))
            = Some (call_train wwc (tensorboard_log_base_directory // run_name)
                      (nets_base_directory // run_name) 100)).
Proof.
  intros Hstamp Hocc frozen run.
  destruct (transfer_run_calls self trainable_layer_count w run stamp
              (train_transfer_run self trainable_layer_count w) Hstamp)
    as (calls & tail & Htrace & Hcalls & Htail & Hreturns).
  exists (transfer_run_name stamp (name self) frozen).
  split; [by apply parse_transfer_run_name_correct|]. split.
  - intros wwc logs nets batches. unfold calls_between.
    rewrite Htrace, drop_app_length. intros Hin.
    apply elem_of_cons in Hin as [Hin | Hin]; [discriminate|].
    apply elem_of_cons in Hin as [Hin | Hin]; [discriminate|].
    destruct (transfer_run_train self trainable_layer_count w stamp calls tail
                Hcalls Htail wwc logs nets batches Hin) as (-> & -> & _).
    split; reflexivity.
  - intros o Ho. destruct (Hreturns o Ho) as (m & c & wwc & ->).
    exists wwc. rewrite Htrace.
    match goal with
    | |- context [?a :: ?b :: calls ++ ?t] =>
        change (a :: b :: calls ++ t) with ([a; b] ++ calls ++ t)
    end.
    rewrite !last_app. reflexivity.
Qed.

(** ** The prediction demo *)

Lemma makes_external {A} (c : Call) (answer : list Call -> Outcome A) (good : Call -> Prop) :
  good c -> makes (external c answer) good (fun _ calls => calls = [c]).
Proof.
  intros Hgood w. exists [c]. unfold external; simpl.
  repeat split. by constructor.
Qed.

Lemma makes_bind {A B} (m : M A) (k : A -> M B) (good : Call -> Prop)
    (P : A -> list Call -> Prop) (Q : A -> B -> list Call -> Prop) :
  makes m good P ->
  (forall a, makes (k a) good (Q a)) ->
  makes (bind m k) good
    (fun b calls => exists a first rest, calls = first ++ rest /\ P a first /\ Q a b rest).
Proof.
  intros Hm Hk w. unfold bind.
  destruct (Hm w) as (first & Ht & Hc & Hg & Hgood & Hshape).
  destruct (m w) as [[a|e] w1]; simpl in *.
  - destruct (Hk a w1) as (rest & Ht' & Hc' & Hg' & Hgood' & Hshape').
    exists (first ++ rest).
    split; [by rewrite Ht', Ht, app_assoc|].
    split; [congruence|]. split; [congruence|].
    split; [by apply Forall_app|].
    intros b Hb. exists a, first, rest. split; [reflexivity|]. split; [by apply Hshape | by apply Hshape'].
  - exists first. repeat split; try assumption. discriminate.
Qed.

Lemma makes_shape {A} (m : M A) (good : Call -> Prop) (P Q : A -> list Call -> Prop) :
  makes m good P -> (forall a calls, P a calls -> Q a calls) -> makes m good Q.
Proof.
  intros Hm HPQ w. destruct (Hm w) as (calls & Ht & Hc & Hg & Hgood & Hshape).
  exists calls. repeat split; try assumption. intros a Ha. by apply HPQ, Hshape.
Qed.

Lemma print_prediction_from_file_makes (wav2letter : Wav2Letter)
    (file_name description : string) :
  makes (print_prediction_from_file wav2letter file_name description) (demo_call wav2letter)
    (fun _ calls =>
       exists answers, calls = prediction_calls wav2letter (file_name, description) answers).
Proof.
  unfold print_prediction_from_file, print_prediction, predict, print.
  eapply makes_shape.
  - apply makes_bind; [by apply makes_external|]. intros example.
    apply makes_bind.
    + apply makes_bind; [by apply makes_external|]. intros spectrogram.
      by apply makes_external.
    + intros prediction. by apply makes_external.
  - simpl. intros _ calls
      (example & c1 & c2 & -> & -> & prediction & c3 & c4 & -> & Hc3 & ->).
    destruct Hc3 as (spectrogram & c5 & c6 & -> & -> & ->).
    by exists (example, spectrogram, prediction).
Qed.

Lemma print_example_predictions_makes (wav2letter : Wav2Letter) :
  makes (print_example_predictions wav2letter) (demo_call wav2letter)
    (fun _ calls =>
       exists answers, length answers = 5%nat /\ calls = demo_calls wav2letter answers).
Proof.
  unfold print_example_predictions, print.
  eapply makes_shape.
  - apply makes_bind; [by apply makes_external|]. intros ?.
    apply makes_bind; [apply print_prediction_from_file_makes|]. intros ?.
    apply makes_bind; [apply print_prediction_from_file_makes|]. intros ?.
    apply makes_bind; [apply print_prediction_from_file_makes|]. intros ?.
    apply makes_bind; [apply print_prediction_from_file_makes|]. intros ?.
    apply print_prediction_from_file_makes.
  - simpl. intros ? calls
      (? & c0 & r0 & -> & -> & ? & c1 & r1 & -> & (x1 & ->)
         & ? & c2 & r2 & -> & (x2 & ->) & ? & c3 & r3 & -> & (x3 & ->)
         & ? & c4 & r4 & -> & (x4 & ->) & (x5 & ->)).
    exists [x1; x2; x3; x4; x5]. split; [reflexivity|].
    destruct x1 as [[? ?] ?], x2 as [[? ?] ?], x3 as [[? ?] ?], x4 as [[? ?] ?],
      x5 as [[? ?] ?]. reflexivity.
Qed.

(** *** What a returning demo was answered *)

Lemma print_prediction_from_file_returns (wav2letter : Wav2Letter)
    (file_name description : string) (w w' : World) (o : unit) :
  print_prediction_from_file wav2letter file_name description w = (Returns o, w') ->
  exists answers,
    transcribed wav2letter (trace w) (file_name, description) answers
    /\ trace w' = trace w ++ prediction_calls wav2letter (file_name, description) answers.
Proof.
  unfold print_prediction_from_file, print_prediction, predict, print. intros Hrun.
  apply bind_returns in Hrun as (example & w1 & Hexample & Hrun).
  apply external_returns in Hexample as [Hexample ->].
  apply bind_returns in Hrun as (prediction & w3 & Hpredict & Hprint).
  apply bind_returns in Hpredict as (spectrogram & w2 & Hspectrogram & Hprediction).
  apply external_returns in Hspectrogram as [Hspectrogram ->].
  apply external_returns in Hprediction as [Hprediction ->].
  apply external_returns in Hprint as [Hprint ->].
  destruct o. exists (example, spectrogram, prediction).
  simpl in *. rewrite <- !app_assoc in *. simpl in *.
  repeat split; assumption.
Qed.

Lemma transcriptions_length (wav2letter : Wav2Letter) (h : list Call)
    (files : list (string * string)) (answers : list (LabeledExample * Spectrogram * string)) :
  transcriptions wav2letter h files answers -> length answers = length files.
Proof.
  revert h answers. induction files as [|file files IH]; intros h [|answer answers]; simpl;
    try done.
  intros [_ Hrest]. f_equal. by eapply IH.
Qed.

Lemma print_example_predictions_returns (wav2letter : Wav2Letter) (w w' : World) (o : unit) :
  print_example_predictions wav2letter w = (Returns o, w') ->
  exists answers,
    print_answer (trace w) "Predictions: " = Returns tt
    /\ transcriptions wav2letter (trace w ++ [call_print "Predictions: "]) example_files
         answers
    /\ trace w' = trace w ++ demo_calls wav2letter answers.
Proof.
  unfold print_example_predictions, print. intros Hrun.
  apply bind_returns in Hrun as ([] & w0 & Hheader & Hrun).
  apply external_returns in Hheader as [Hheader ->].
  apply bind_returns in Hrun as (o1 & w1 & Hfile1 & Hrun).
  apply print_prediction_from_file_returns in Hfile1 as (x1 & Hx1 & Ht1).
  apply bind_returns in Hrun as (o2 & w2 & Hfile2 & Hrun).
  apply print_prediction_from_file_returns in Hfile2 as (x2 & Hx2 & Ht2).
  apply bind_returns in Hrun as (o3 & w3 & Hfile3 & Hrun).
  apply print_prediction_from_file_returns in Hfile3 as (x3 & Hx3 & Ht3).
  apply bind_returns in Hrun as (o4 & w4 & Hfile4 & Hrun).
  apply print_prediction_from_file_returns in Hfile4 as (x4 & Hx4 & Ht4).
  apply print_prediction_from_file_returns in Hrun as (x5 & Hx5 & Ht5).
  exists [x1; x2; x3; x4; x5].
  split; [exact Hheader|].
  rewrite Ht4 in Hx5, Ht5. rewrite Ht3 in Hx4, Hx5, Ht5. rewrite Ht2 in Hx3, Hx4, Hx5, Ht5.
  rewrite Ht1 in Hx2, Hx3, Hx4, Hx5, Ht5.
  change (trace (log (call_print "Predictions: ") w))
    with (trace w ++ [call_print "Predictions: "]) in *.
  split; [unfold example_files, transcriptions; by repeat split|].
  rewrite Ht5. unfold demo_calls, example_files.
  destruct x1 as [[? ?] ?], x2 as [[? ?] ?], x3 as [[? ?] ?], x4 as [[? ?] ?],
    x5 as [[? ?] ?].
  simpl. rewrite <- !app_assoc. reflexivity.
Qed.

(** C9: [predict_recording] asks once for the model, with the default
    arguments: the alphabet [english_frequent_characters], no frozen layer, no
    language model.  It builds no other model, every prediction is made with
    the model that call returned, and when the demo returns it has
    transcribed and printed the five files in turn: for each file, the
    example is the one [LabeledExample] answered for the file, the
    spectrogram the one that example answered, the text the one the model
    answered for that spectrogram, and that text is what is printed after
    the description.  Nothing of a Configuration is read or stored. *)
Theorem predict_recording_uses_one_model (w : World) :
  let run := predict_recording w in
  exists rest,
    trace (snd run) = trace w ++ call_Wav2Letter default_arguments :: rest
    /\ arg_allowed_characters default_arguments = english_frequent_characters
    /\ arg_frozen_layer_count default_arguments = 0
    /\ arg_kenlm_directory default_arguments = None
    /\ Forall (fun c => is_Wav2Letter_call c = false) rest
    /\ (forall self spectrogram,
          call_predict_single self spectrogram ∈ rest ->
          Wav2Letter_answer (trace w) default_arguments = Returns self)
    /\ (forall o, fst run = Returns o ->
          exists wav2letter answers,
            Wav2Letter_answer (trace w) default_arguments = Returns wav2letter
            /\ length answers = 5%nat
            /\ rest = demo_calls wav2letter answers
            /\ print_answer (trace w ++ [call_Wav2Letter default_arguments]) "Predictions: "
               = Returns tt
            /\ transcriptions wav2letter
                 (trace w ++ [call_Wav2Letter default_arguments; call_print "Predictions: "])
                 example_files answers)
    /\ corpus_slot (snd run) = corpus_slot w
    /\ batch_generator_slot (snd run) = batch_generator_slot w.
Proof.
  intros run.
  assert (Hrun : run =
            match Wav2Letter_answer (trace w) default_arguments with
            | Returns wav2letter =>
                print_example_predictions wav2letter (log (call_Wav2Letter default_arguments) w)
            | Raises e => (Raises e, log (call_Wav2Letter default_arguments) w)
            end) by reflexivity.
  destruct (Wav2Letter_answer (trace w) default_arguments) as [wav2letter|e] eqn:Hmodel;
    rewrite Hrun; clear Hrun.
  - destruct (print_example_predictions_makes wav2letter
                (log (call_Wav2Letter default_arguments) w))
      as (rest & Ht & Hc & Hg & Hgood & Hshape).
    exists rest. split; [rewrite Ht; simpl; by rewrite <- app_assoc|].
    do 3 (split; [reflexivity|]).
    split; [eapply Forall_impl; [exact Hgood | by intros c [Hc1 _]]|].
    split.
    + intros self spectrogram Hin. rewrite Forall_forall in Hgood.
      destruct (Hgood _ Hin) as [_ Hwith]. simpl in Hwith. by subst.
    + split; [|split; assumption].
      intros o Ho.
      destruct (print_example_predictions wav2letter
                  (log (call_Wav2Letter default_arguments) w)) as [result w'] eqn:Hdemo.
      simpl in Ho, Ht. subst result.
      apply print_example_predictions_returns in Hdemo as (answers & Hheader & Hfiles & Ht').
      rewrite Ht' in Ht. apply app_inv_head in Ht. subst rest.
      simpl trace in Hheader, Hfiles. rewrite <- app_assoc in Hfiles.
      exists wav2letter, answers. split; [reflexivity|].
      split; [exact (transcriptions_length _ _ _ _ Hfiles)|].
      split; [reflexivity|]. split; [exact Hheader | exact Hfiles].
  - exists []. simpl. split; [reflexivity|]. do 3 (split; [reflexivity|]).
    split; [constructor|]. split; [intros ? ? Hin; by apply elem_of_nil in Hin|].
    split; [discriminate | split; reflexivity].
Qed.

End Properties.

(** * The properties at work in the sample environment *)

#[local] Existing Instance parts.

(** A checkpoint trained on [a, b, c] loaded for [b, c, d]: [b] keeps its
    row, [d] is fresh. *)
Lemma output_weights_follow_symbols_witness :
  exists model w',
    @load_best_wav2letter_model parts (studio 0) None None (Some ["b"; "c"; "d"]) None
      (log call_timestamp sample_world) = (Returns model, w')
    /\ model = Wav2Letter_at 1
    /\ @AlphabetMapping.output_layer parts Z sample_net (trace w') model !! 0%nat
       = Some (20, false)
    /\ @AlphabetMapping.output_layer parts Z sample_net (trace w') model !! 2%nat
       = Some (102, true)
    /\ length (@AlphabetMapping.output_layer parts Z sample_net (trace w') model) = 3%nat.
Proof.
  assert (Hnet : @AlphabetMapping.constructor_transfers_by_symbol parts (studio 0) Z
                   sample_net).
  { intros h arguments model [= <-]. simpl.
    rewrite list_lookup_middle; reflexivity. }
  do 2 eexists. split; [reflexivity|]. split; [reflexivity|].
  destruct (@output_weights_follow_symbols parts (studio 0) Z sample_net None None
              ["b"; "c"; "d"] None (log call_timestamp sample_world) _ _
              Hnet eq_refl eq_refl) as (_ & Hlength & Hboth & Hfresh & _).
  split; [|split; [|exact Hlength]].
  - destruct (Hboth "b" 0%nat) as (i & row & Hi & _ & Hrow & Hlayer);
      [apply elem_of_cons; right; apply elem_of_cons; by left | reflexivity |].
    vm_compute in Hi. injection Hi as <-. injection Hrow as <-. exact Hlayer.
  - apply (Hfresh "d" 2%nat); [|reflexivity].
    apply (proj1 (@index_of_None "d" ["a"; "b"; "c"])). reflexivity.
Defined.

(** Two German Configurations with different directories of their own, and
    two that are given a corpus directory only: these keep their corpus
    directories apart and share the default cache directory. *)
Lemma Configuration_directories_witness :
  (exists self1 self2 w1 w2,
    @Configuration_new parts (studio 0) "German" ["b"; "c"; "d"] german_corpus
      (Some ["data"; "one"]) (Some ["cache"; "one"]) initial_world = (Returns self1, w1)
    /\ @Configuration_new parts (studio 0) "German" ["b"; "c"; "d"] german_corpus
         (Some ["data"; "two"]) (Some ["cache"; "two"]) initial_world = (Returns self2, w2)
    /\ corpus_directory self1 <> corpus_directory self2
    /\ spectrogram_cache_directory self1 <> spectrogram_cache_directory self2)
  /\ (exists self1 self2 w1 w2,
    @Configuration_new parts (studio 0) "German" ["b"; "c"; "d"] german_corpus
      (Some ["data"; "one"]) None initial_world = (Returns self1, w1)
    /\ @Configuration_new parts (studio 0) "German" ["b"; "c"; "d"] german_corpus
         (Some ["data"; "two"]) None initial_world = (Returns self2, w2)
    /\ corpus_directory self1 = ["data"; "one"]
    /\ corpus_directory self2 = ["data"; "two"]
    /\ corpus_directory self1 <> corpus_directory self2
    /\ spectrogram_cache_directory self1 = sample_home // "spectrogram-cache" // "German"
    /\ spectrogram_cache_directory self2 = sample_home // "spectrogram-cache" // "German").
Proof.
  destruct (@Configuration_directories parts (studio 0) "German" ["b"; "c"; "d"]
              german_corpus initial_world)
    as (_ & _ & _ & Hgiven & Hdistinct & Hcorpus & _).
  split.
  - do 4 eexists. split; [reflexivity|]. split; [reflexivity|].
    destruct (Hdistinct ["data"; "one"] ["cache"; "one"] ["data"; "two"] ["cache"; "two"]
                ["b"; "c"; "d"] german_corpus initial_world _ _ _ _ eq_refl eq_refl)
      as [Hdir Hcache].
    split; [apply Hdir | apply Hcache]; discriminate.
  - do 4 eexists. split; [reflexivity|]. split; [reflexivity|].
    destruct (Hgiven (Some ["data"; "one"]) None _ _ eq_refl) as (Hdir1 & _ & _ & Hcache1).
    destruct (Hgiven (Some ["data"; "two"]) None _ _ eq_refl) as (Hdir2 & _ & _ & Hcache2).
    split; [exact (Hdir1 _ eq_refl)|]. split; [exact (Hdir2 _ eq_refl)|].
    split; [|split; [exact (Hcache1 eq_refl) | exact (Hcache2 eq_refl)]].
    apply (Hcorpus ["data"; "one"] ["data"; "two"] None None ["b"; "c"; "d"] german_corpus
             initial_world _ _ _ _ eq_refl eq_refl).
    discriminate.
Defined.


(** A corpus file that is missing at the first access and there at the
    second. *)
Lemma corpus_failure_is_not_memoized_witness :
  exists w1 c w2,
    @corpus parts (studio 1) (sample_german 1) sample_world
    = (Raises (Exception "FileNotFoundError"), w1)
    /\ trace w1 = [call_Corpus_load (sample_home // "corpus" // "German" // "corpus.csv")]
    /\ corpus_slot w1 !! 0%nat = None
    /\ @corpus parts (studio 1) (sample_german 1) w1 = (Returns c, w2)
    /\ trace w2 = [call_Corpus_load (sample_home // "corpus" // "German" // "corpus.csv");
                   call_Corpus_load (sample_home // "corpus" // "German" // "corpus.csv")].
Proof.
  destruct (@corpus_failure_is_not_memoized parts (studio 1) (sample_german 1)
              sample_world _ _ eq_refl eq_refl) as (Hraise & Htrace & Hnone & Hagain & Htrace').
  do 3 eexists.
  split; [exact Hraise|]. split; [exact Htrace|]. split; [exact Hnone|].
  split; [exact Hagain | exact Htrace'].
Defined.

(** [Configuration.german()] reads ["corpus.csv"]. *)
Lemma german_corpus_source_witness :
  exists self w,
    @german parts (studio 0) None initial_world = (Returns self, w)
    /\ trace (snd (@corpus parts (studio 0) self w))
       = [call_Corpus_load (sample_home // "corpus" // "German" // "corpus.csv")].
Proof.
  destruct (@german_corpus_source parts (studio 0) initial_world) as [Hcached _].
  destruct (Hcached None (or_introl eq_refl)) as (self & w & Hnew & _ & Hcorpus).
  exists self, w. split; [exact Hnew|].
  injection Hnew as <- <-.
  lazymatch goal with
  | |- trace (snd (corpus _ ?w)) = _ => exact (proj2 (Hcorpus w eq_refl))
  end.
Defined.

(** Three trainable layers: eight frozen ones. *)
Lemma transfer_freezes_the_other_layers_witness :
  exists arguments rest wwc,
    trace (snd (@train_transfer_from_best_english_model parts (studio 0) (sample_german 0)
                  (Some 3) sample_world))
    = call_timestamp :: call_Wav2Letter arguments :: rest
    /\ arg_frozen_layer_count arguments = 8
    /\ last rest
       = Some (call_train wwc
                 (sample_home // "logs"
                    // "20170316-180957-adam-small-learning-rate-transfer-to-German-freeze-8")
                 (sample_home // "nets"
                    // "20170316-180957-adam-small-learning-rate-transfer-to-German-freeze-8")
                 100).
Proof.
  destruct (@transfer_freezes_the_other_layers parts (studio 0) (sample_german 0) (Some 3)
              sample_world "20170316-180957" eq_refl)
    as (arguments & rest & Htrace & _ & Hfrozen & _ & _).
  exists arguments, rest. eexists.
  split; [exact Htrace|]. split; [exact Hfrozen|].
  vm_compute in Htrace. injection Htrace as _ <-. reflexivity.
Defined.

(** Minus four trainable layers: the model is asked for with fifteen
    frozen ones. *)
Lemma transfer_does_not_check_the_layer_count_witness :
  exists arguments rest,
    trace (snd (@train_transfer_from_best_english_model parts (studio 0) (sample_german 0)
                  (Some (-4)) sample_world))
    = call_timestamp :: call_Wav2Letter arguments :: rest
    /\ arg_frozen_layer_count arguments = 15.
Proof.
  destruct (@transfer_does_not_check_the_layer_count parts (studio 0) (sample_german 0)
              (Some (-4)) sample_world) as (_ & Hmodel & _).
  destruct (Hmodel "20170316-180957" eq_refl) as (arguments & rest & Htrace & Hfrozen & _).
  exists arguments, rest. split; [exact Htrace | exact Hfrozen].
Defined.

(** At twelve trainable layers, and at minus one, the sample run is not
    rejected: the model is asked for, with [-1] and [12] frozen layers, the
    corpus is read and training is started. *)
Lemma transfer_accepts_any_layer_count :
  @german parts (studio 0) None initial_world = (Returns (sample_german 0), sample_world)
  /\
  (fst (@train_transfer_from_best_english_model parts (studio 0) (sample_german 0) (Some 12)
          sample_world) = Returns tt
   /\ trace (snd (@train_transfer_from_best_english_model parts (studio 0) (sample_german 0)
                    (Some 12) sample_world))
      = [call_timestamp;
         call_Wav2Letter (@transfer_arguments parts (studio 0) (sample_german 0) (-1));
         call_Corpus_load (sample_home // "corpus" // "German" // "corpus.csv");
         call_Wav2LetterWithCorpus (Wav2Letter_at 1) (Corpus_at 2)
           (sample_home // "spectrogram-cache" // "German");
         call_train (Wav2LetterWithCorpus_at 3)
           (sample_home // "logs"
              // "20170316-180957-adam-small-learning-rate-transfer-to-German-freeze--1")
           (sample_home // "nets"
              // "20170316-180957-adam-small-learning-rate-transfer-to-German-freeze--1")
           100])
  /\ (fst (@train_transfer_from_best_english_model parts (studio 0) (sample_german 0)
             (Some (-1)) sample_world) = Returns tt
      /\ trace (snd (@train_transfer_from_best_english_model parts (studio 0)
                       (sample_german 0) (Some (-1)) sample_world)) !! 1%nat
         = Some (call_Wav2Letter
                   (@transfer_arguments parts (studio 0) (sample_german 0) 12))
      /\ length (trace (snd (@train_transfer_from_best_english_model parts (studio 0)
                               (sample_german 0) (Some (-1)) sample_world))) = 5%nat).
Proof. repeat split. Qed.

(** The run name of the default transfer to German, read back. *)
Lemma transfer_run_name_is_read_back_witness :
  parse_transfer_run_name
    "20170316-180957-adam-small-learning-rate-transfer-to-German-freeze-10"
  = Some ("20170316-180957", "German", 10).
Proof.
  destruct (@transfer_run_name_is_read_back parts (studio 0) (sample_german 0) None
              sample_world "20170316-180957" eq_refl eq_refl)
    as (run_name & Hparse & _ & Hlast).
  destruct (Hlast tt eq_refl) as (wwc & Hcall).
  vm_compute in Hcall. injection Hcall as _ _ <-. exact Hparse.
Defined.

(** The name under which the sample transfer to German runs does not hold
    the name of the Configuration the checkpoint was trained for,
    ["English"]. *)
Lemma transfer_run_name_lacks_the_source_name :
  let run_name := "20170316-180957-adam-small-learning-rate-transfer-to-German-freeze-10" in
  fst (@english parts (studio 0) initial_world) = Returns (sample_english 0)
  /\ name (sample_english 0) = "English"
  /\ @german parts (studio 0) None initial_world = (Returns (sample_german 0), sample_world)
  /\ fst (@train_transfer_from_best_english_model parts (studio 0) (sample_german 0) None
            sample_world) = Returns tt
  /\ last (trace (snd (@train_transfer_from_best_english_model parts (studio 0)
                         (sample_german 0) None sample_world)))
     = Some (call_train (Wav2LetterWithCorpus_at 3) (sample_home // "logs" // run_name)
               (sample_home // "nets" // run_name) 100)
  /\ contains (name (sample_english 0)) run_name = false.
Proof. repeat split. Qed.

(** The demo in the sample environment: the first file is transcribed
    from the example, the spectrogram and the text that the sample imports
    answer, and that text is printed. *)
Lemma predict_recording_uses_one_model_witness :
  exists w answers others,
    @predict_recording parts (studio 0) initial_world = (Returns tt, w)
    /\ length answers = 5%nat
    /\ trace w = call_Wav2Letter (@default_arguments parts (studio 0))
                 :: @demo_calls parts (studio 0) (Wav2Letter_at 0) answers
    /\ answers
       = (LabeledExample_at 2, Spectrogram_at 3, "concord returned to its place") :: others
    /\ trace w !! 5%nat
       = Some (call_print
                 ("Sample labeled " +:+ quoted "concord returned to its place amidst the tents"
                  +:+ ": " +:+ quoted "concord returned to its place")).
Proof.
  destruct (@predict_recording_uses_one_model parts (studio 0) initial_world)
    as (rest & Htrace & _ & _ & _ & _ & _ & Hreturns & _).
  destruct (Hreturns tt eq_refl)
    as (wav2letter & answers & Hmodel & Hlength & -> & _ & Hfiles).
  injection Hmodel as <-.
  destruct answers as [|[[example spectrogram] prediction] others]; [discriminate|].
  destruct Hfiles as [(Hexample & Hspectrogram & Hprediction & _) _].
  injection Hexample as <-. injection Hspectrogram as <-. injection Hprediction as <-.
  eexists _, _, others. split; [reflexivity|]. split; [exact Hlength|].
  split; [exact Htrace|]. split; reflexivity.
Defined.

(** * Further properties *)

Section Further.
Context {paths : PathLib} {imports : Imports}.

(** ** The batch generator and the cache *)

Lemma batch_generator_first (self : Configuration) (w : World) :
  batch_generator_slot w !! instance self = None ->
  batch_generator self w =
    match corpus self w with
    | (Returns c, w0) =>
        match LabeledSpectrogramBatchGenerator_answer (trace w0) c
                (spectrogram_cache_directory self) with
        | Returns g =>
            (Returns g,
             store_batch_generator self g
               (log (call_LabeledSpectrogramBatchGenerator c
                       (spectrogram_cache_directory self)) w0))
        | Raises e =>
            (Raises e,
             log (call_LabeledSpectrogramBatchGenerator c (spectrogram_cache_directory self))
               w0)
        end
    | (Raises e, w0) => (Raises e, w0)
    end.
Proof.
  intros Hnone. unfold batch_generator. rewrite lazy_first by assumption.
  unfold bind, external. destruct (corpus self w) as [[c|e] w0]; [|reflexivity].
  by destruct (LabeledSpectrogramBatchGenerator_answer (trace w0) c _).
Qed.


(** When building the batch generator fails, the failure is not stored.
    Either the corpus could not be read, and then no generator was
    constructed; or the corpus was read and is kept, and the next access
    constructs the generator again without reading the corpus again.  In both
    cases [fill_up_cache] raises the same exception and does not call
    [fill_cache]. *)
Theorem batch_generator_failure (self : Configuration) (w w1 : World) (e : Exn) :
  batch_generator_slot w !! instance self = None ->
  batch_generator self w = (Raises e, w1) ->
  batch_generator_slot w1 !! instance self = None
  /\ fill_up_cache self w = (Raises e, w1)
  /\ (corpus self w = (Raises e, w1)
      \/ exists c w0,
           corpus self w = (Returns c, w0)
           /\ trace w1 = trace w0 ++ [call_LabeledSpectrogramBatchGenerator c
                                        (spectrogram_cache_directory self)]
           /\ corpus self w1 = (Returns c, w1)
           /\ trace (snd (batch_generator self w1))
              = trace w1 ++ [call_LabeledSpectrogramBatchGenerator c
                               (spectrogram_cache_directory self)]).
Proof.
  intros Hnone Hrun.
  split; [|split; [unfold fill_up_cache, bind; by rewrite Hrun|]].
  - rewrite batch_generator_first in Hrun by assumption.
    pose proof (corpus_keeps_batch_generator_slot self w) as Hkeep.
    destruct (corpus self w) as [[c|e'] w0]; simpl in Hkeep.
    + destruct (LabeledSpectrogramBatchGenerator_answer (trace w0) c _); [discriminate|].
      injection Hrun as _ <-. simpl. by rewrite Hkeep.
    + injection Hrun as _ <-. by rewrite Hkeep.
  - rewrite batch_generator_first in Hrun by assumption.
    pose proof (corpus_keeps_batch_generator_slot self w) as Hkeep.
    pose proof (corpus_returns_stored self w) as Hstored.
    destruct (corpus self w) as [[c|e'] w0] eqn:Hc; simpl in Hkeep.
    + right. exists c, w0.
      destruct (LabeledSpectrogramBatchGenerator_answer (trace w0) c _); [discriminate|].
      injection Hrun as _ <-.
      assert (Hc1 : corpus self (log (call_LabeledSpectrogramBatchGenerator c
                       (spectrogram_cache_directory self)) w0)
                    = (Returns c, log (call_LabeledSpectrogramBatchGenerator c
                                         (spectrogram_cache_directory self)) w0)).
      { apply corpus_stored. simpl. by apply Hstored. }
      split; [reflexivity|]. split; [reflexivity|]. split; [exact Hc1|].
      rewrite batch_generator_first by (simpl; by rewrite Hkeep).
      rewrite Hc1.
      by destruct (LabeledSpectrogramBatchGenerator_answer _ c _).
    + left. by injection Hrun as <- <-.
Qed.

(** ** Objects do not share what they store *)

Lemma Configuration_new_fresh (name : string) (allowed_characters : list chr) (f : Callable)
    (corpus_directory spectrogram_cache_directory : option Path) (w w' : World)
    (self : Configuration) :
  well_formed w ->
  Configuration_new name allowed_characters f corpus_directory spectrogram_cache_directory w
  = (Returns self, w') ->
  instance self = next_instance w
  /\ next_instance w' = S (next_instance w)
  /\ trace w' = trace w
  /\ corpus_slot w' = corpus_slot w
  /\ batch_generator_slot w' = batch_generator_slot w
  /\ corpus_slot w' !! instance self = None
  /\ batch_generator_slot w' !! instance self = None
  /\ well_formed w'.
Proof.
  intros Hwf Hnew. injection Hnew as <- <-. simpl.
  do 5 (split; [reflexivity|]).
  split; [by apply Hwf|]. split; [by apply Hwf|].
  intros i Hi. simpl in *. apply Hwf. lia.
Qed.

Lemma corpus_next_instance (self : Configuration) (w : World) :
  next_instance (snd (corpus self w)) = next_instance w.
Proof.
  unfold corpus, lazy. destruct (corpus_slot w !! instance self); [reflexivity|].
  pose proof (invoke_run (corpus_from_directory self) (corpus_directory self) w) as Hrun.
  destruct (invoke _ _ w) as [[v|e] w1]; simpl in *; by subst.
Qed.

Lemma corpus_well_formed (self : Configuration) (w : World) :
  well_formed w -> allocated self w -> well_formed (snd (corpus self w)).
Proof.
  intros Hwf Halloc. unfold corpus, lazy.
  destruct (corpus_slot w !! instance self); [exact Hwf|].
  pose proof (invoke_run (corpus_from_directory self) (corpus_directory self) w) as Hrun.
  destruct (invoke _ _ w) as [[v|e] w1]; simpl in *; subst w1; [|exact Hwf].
  intros i Hi. simpl in *. unfold allocated in Halloc.
  rewrite lookup_insert_ne by lia. by apply Hwf.
Qed.

(** Two Configurations made one after the other are different objects,
    whatever their names and directories: after the first has read its
    corpus, the first access to the corpus of the second calls its function
    too, and the first keeps the corpus it has. *)
Theorem objects_read_their_own_corpus (name1 name2 : string) (chars1 chars2 : list chr)
    (f1 f2 : Callable) (dir1 cache1 dir2 cache2 : option Path)
    (w w1 w2 w3 : World) (self1 self2 : Configuration) (c1 : Corpus) :
  well_formed w ->
  Configuration_new name1 chars1 f1 dir1 cache1 w = (Returns self1, w1) ->
  corpus self1 w1 = (Returns c1, w2) ->
  Configuration_new name2 chars2 f2 dir2 cache2 w2 = (Returns self2, w3) ->
  instance self1 <> instance self2
  /\ trace w3 = trace w ++ [invocation f1 (corpus_directory self1)]
  /\ trace (snd (corpus self2 w3))
     = trace w3 ++ [invocation f2 (corpus_directory self2)]
  /\ corpus self1 (snd (corpus self2 w3)) = (Returns c1, snd (corpus self2 w3)).
Proof.
  intros Hwf Hnew1 Hc1 Hnew2.
  destruct (Configuration_new_fresh _ _ _ _ _ _ _ _ Hwf Hnew1)
    as (Hi1 & Hn1 & Ht1 & _ & _ & Hs1 & _ & Hwf1).
  assert (Hwf2 : well_formed w2).
  { pose proof (corpus_well_formed self1 w1 Hwf1) as Hwf2. rewrite Hc1 in Hwf2.
    apply Hwf2. unfold allocated. lia. }
  assert (Hn2 : next_instance w2 = next_instance w1).
  { pose proof (corpus_next_instance self1 w1) as Hn. by rewrite Hc1 in Hn. }
  destruct (Configuration_new_fresh _ _ _ _ _ _ _ _ Hwf2 Hnew2)
    as (Hi2 & _ & Ht2 & Hs2 & _ & Hnone2 & _ & _).
  assert (Hf1 : corpus_from_directory self1 = f1) by (by injection Hnew1 as <- _).
  assert (Hf2 : corpus_from_directory self2 = f2) by (by injection Hnew2 as <- _).
  split; [lia|]. split; [|split].
  - rewrite Ht2.
    destruct (corpus_world self1 w1) as [(c & Hsome & _) | (_ & Ht & _)];
      [congruence|].
    rewrite Hc1 in Ht. simpl in Ht. by rewrite Ht, Ht1, Hf1.
  - destruct (corpus_world self2 w3) as [(c & Hsome & _) | (_ & Ht & _)];
      [congruence|].
    by rewrite Ht, Hf2.
  - apply corpus_stored. eapply later_corpus_slot; [apply corpus_later|].
    rewrite Hs2. by apply (corpus_returns_stored self1 w1 w2 c1).
Qed.

(** ** Transfer training: the order of what it does *)

(** When the corpus cannot be read, transfer training fails after it has
    asked for the pretrained model: the timestamp, the model and the corpus
    function are the three calls of the run, no training is started and no
    corpus is stored. *)
Theorem transfer_fails_after_the_model (self : Configuration)
    (trainable_layer_count : option Z) (w w2 : World) (stamp : string)
    (wav2letter : Wav2Letter) (e : Exn) :
  let arguments := transfer_arguments self (11 - default 1 trainable_layer_count) in
  timestamp_answer (trace w) = Returns stamp ->
  Wav2Letter_answer (trace w ++ [call_timestamp]) arguments = Returns wav2letter ->
  corpus_slot w !! instance self = None ->
  invoke (corpus_from_directory self) (corpus_directory self)
    (log (call_Wav2Letter arguments) (log call_timestamp w)) = (Raises e, w2) ->
  train_transfer_from_best_english_model self trainable_layer_count w = (Raises e, w2)
  /\ trace w2 = trace w ++ [call_timestamp; call_Wav2Letter arguments;
                            invocation (corpus_from_directory self) (corpus_directory self)]
  /\ corpus_slot w2 !! instance self = None.
Proof.
  intros arguments Hstamp Hmodel Hnone Hraise.
  assert (Hcorpus : corpus self (log (call_Wav2Letter arguments) (log call_timestamp w))
                    = (Raises e, w2)).
  { rewrite corpus_first by exact Hnone. by rewrite Hraise. }
  pose proof (invoke_run (corpus_from_directory self) (corpus_directory self)
                (log (call_Wav2Letter arguments) (log call_timestamp w))) as Hrun.
  rewrite Hraise in Hrun. simpl in Hrun.
  split; [|split].
  - destruct (train_transfer_run self trainable_layer_count w)
      as [e' He | stamp' e' arguments' Hs Hm | stamp' m' e' w' arguments' Hs Hm Hc
         | stamp' m' c' e' w' arguments' Hs Hm Hc Hw
         | stamp' m' c' wwc w' frozen arguments' logs nets w3 Hs Hm Hc Hw];
      unfold arguments in *; try subst frozen; try subst arguments'; congruence.
  - rewrite Hrun. simpl. by rewrite <- !app_assoc.
  - rewrite Hrun. exact Hnone.
Qed.

(** After a transfer training that returned, the corpus is stored: a
    later transfer training on the same Configuration asks for the model
    again but reads no corpus. *)
Theorem transfer_reads_the_corpus_once (self : Configuration)
    (count1 count2 : option Z) (w w1 : World) :
  train_transfer_from_best_english_model self count1 w = (Returns tt, w1) ->
  forall w2, later w1 w2 ->
    Forall (fun c => is_corpus_call c = false)
      (calls_between w2 (snd (train_transfer_from_best_english_model self count2 w2)))
    /\ forall stamp, timestamp_answer (trace w2) = Returns stamp ->
         exists rest,
           trace (snd (train_transfer_from_best_english_model self count2 w2))
           = trace w2 ++ call_timestamp
               :: call_Wav2Letter (transfer_arguments self (11 - default 1 count2)) :: rest.
Proof.
  intros Hfirst w2 Hl.
  assert (Hstored : exists c, corpus_slot w1 !! instance self = Some c).
  { pose proof (train_transfer_run self count1 w) as Hshape.
    rewrite Hfirst in Hshape. inversion Hshape; subst.
    match goal with
    | Hc : corpus self _ = (Returns ?c, _) |- _ =>
        exists c; apply corpus_returns_stored in Hc; exact Hc
    end. }
  destruct Hstored as [c Hc].
  assert (Hread : forall w', later w2 w' -> corpus self w' = (Returns c, w')).
  { intros w' Hl'. apply corpus_stored.
    eapply (later_corpus_slot w1); [eapply later_trans; [exact Hl | exact Hl'] | exact Hc]. }
  split.
  - pose proof (train_transfer_run self count2 w2) as Hshape. unfold calls_between.
    inversion Hshape as [e He Hr | stamp e arguments Hs Hm Hr
                        | stamp m e w' arguments Hs Hm Hcorpus Hr
                        | stamp m c' e w' arguments Hs Hm Hcorpus Hw Hr
                        | stamp m c' wwc w' frozen arguments logs nets w3 Hs Hm Hcorpus Hw Hr];
      simpl.
    + rewrite drop_app_length. by repeat constructor.
    + rewrite <- app_assoc, drop_app_length. by repeat constructor.
    + rewrite Hread in Hcorpus by (eapply later_trans; apply later_log). discriminate.
    + rewrite Hread in Hcorpus by (eapply later_trans; apply later_log).
      injection Hcorpus as _ <-. simpl.
      rewrite <- !app_assoc, drop_app_length. by repeat constructor.
    + rewrite Hread in Hcorpus by (eapply later_trans; apply later_log).
      injection Hcorpus as _ <-. subst w3. simpl.
      rewrite <- !app_assoc, drop_app_length. by repeat constructor.
  - intros stamp Hstamp.
    destruct (transfer_run_calls self count2 w2 _ stamp
                (train_transfer_run self count2 w2) Hstamp) as (calls & tail & Ht & _).
    eexists. exact Ht.
Qed.

(** ** Run names *)

(** Two transfer runs whose timestamps hold no letter [a] have the same
    run name only if timestamp, Configuration name and frozen layer count are
    the same: their directories do not collide otherwise. *)
Theorem transfer_run_name_injective (stamp1 stamp2 name1 name2 : string) (frozen1 frozen2 : Z) :
  occurs "a" stamp1 = false ->
  occurs "a" stamp2 = false ->
  transfer_run_name stamp1 name1 frozen1 = transfer_run_name stamp2 name2 frozen2 ->
  stamp1 = stamp2 /\ name1 = name2 /\ frozen1 = frozen2.
Proof.
  intros H1 H2 Heq. apply (f_equal parse_transfer_run_name) in Heq.
  rewrite !parse_transfer_run_name_correct in Heq by assumption.
  by injection Heq as -> -> ->.
Qed.

(** ** The prediction demo: files in order, until a call fails *)

Lemma opens_external {A} (c : Call) (answer : list Call -> Outcome A) :
  opens (external c answer) (match opened_file c with Some file => [file] | None => [] end).
Proof.
  intros w. exists [c]. unfold external; simpl.
  split; [reflexivity|]. destruct (opened_file c); split; reflexivity.
Qed.

Lemma opens_bind {A B} (m : M A) (k : A -> M B) (files1 files2 : list Path) :
  opens m files1 -> (forall a, opens (k a) files2) -> opens (bind m k) (files1 ++ files2).
Proof.
  intros Hm Hk w. unfold bind.
  destruct (Hm w) as (calls1 & Ht1 & Hp1 & Hr1).
  destruct (m w) as [[a|e] w1]; simpl in *.
  - destruct (Hk a w1) as (calls2 & Ht2 & Hp2 & Hr2).
    exists (calls1 ++ calls2). split; [by rewrite Ht2, Ht1, app_assoc|].
    rewrite omap_app, (Hr1 a eq_refl). split.
    + by apply prefix_app.
    + intros b Hb. by rewrite (Hr2 b Hb).
  - exists calls1. split; [exact Ht1|]. split; [by apply prefix_app_r | discriminate].
Qed.

Lemma print_prediction_from_file_opens (wav2letter : Wav2Letter)
    (file_name description : string) :
  opens (print_prediction_from_file wav2letter file_name description)
    [recording_directory // file_name].
Proof.
  unfold print_prediction_from_file, print_prediction, predict, print.
  apply (opens_bind _ _ [recording_directory // file_name] []);
    [apply (opens_external (call_LabeledExample _))|].
  intros example. apply (opens_bind _ _ [] []).
  - apply (opens_bind _ _ [] []);
      [apply (opens_external (call_z_normalized_transposed_spectrogram _))|].
    intros spectrogram. apply (opens_external (call_predict_single _ _)).
  - intros prediction. apply (opens_external (call_print _)).
Qed.

Lemma print_example_predictions_opens (wav2letter : Wav2Letter) :
  opens (print_example_predictions wav2letter)
    (map (fun file => recording_directory // file.1) example_files).
Proof.
  unfold print_example_predictions, print.
  apply (opens_bind _ _ [] (map (fun file => recording_directory // file.1) example_files));
    [apply (opens_external (call_print _))|]. intros ?.
  apply (opens_bind _ _ [_] [_; _; _; _]); [apply print_prediction_from_file_opens|]. intros ?.
  apply (opens_bind _ _ [_] [_; _; _]); [apply print_prediction_from_file_opens|]. intros ?.
  apply (opens_bind _ _ [_] [_; _]); [apply print_prediction_from_file_opens|]. intros ?.
  apply (opens_bind _ _ [_] [_]); [apply print_prediction_from_file_opens|]. intros ?.
  apply print_prediction_from_file_opens.
Qed.

Lemma all_return_app (h first rest : list Call) :
  all_return h first -> all_return (h ++ first) rest -> all_return h (first ++ rest).
Proof.
  revert h. induction first as [|c first IH]; intros h; simpl.
  - intros _. by rewrite app_nil_r.
  - intros [Hc Hfirst] Hrest. split; [exact Hc|].
    apply IH; [exact Hfirst|]. by rewrite <- app_assoc.
Qed.

Lemma stops_external {A} (c : Call) (answer : list Call -> Outcome A) :
  (forall h, exception_of h c = raised (answer h)) ->
  stops_at_the_first_failure (external c answer).
Proof.
  intros Hanswer w. exists [c]. unfold external; simpl.
  split; [reflexivity|]. specialize (Hanswer (trace w)).
  destruct (answer (trace w)) as [a|e]; simpl in *.
  - by split.
  - exists [], c. rewrite app_nil_r. by repeat split.
Qed.

Lemma stops_bind {A B} (m : M A) (k : A -> M B) :
  stops_at_the_first_failure m -> (forall a, stops_at_the_first_failure (k a)) ->
  stops_at_the_first_failure (bind m k).
Proof.
  intros Hm Hk w. unfold bind.
  destruct (Hm w) as (calls1 & Ht1 & Hend1).
  destruct (m w) as [[a|e] w1]; simpl in *.
  - destruct (Hk a w1) as (calls2 & Ht2 & Hend2). rewrite Ht1 in Ht2, Hend2.
    exists (calls1 ++ calls2). split; [by rewrite Ht2, app_assoc|].
    destruct (fst (k a w1)) as [b|e].
    + by apply all_return_app.
    + destruct Hend2 as (before & c & -> & Hbefore & Hc).
      exists (calls1 ++ before), c. split; [by rewrite app_assoc|].
      split; [by apply all_return_app | by rewrite app_assoc].
  - by exists calls1.
Qed.

Lemma print_prediction_from_file_stops (wav2letter : Wav2Letter)
    (file_name description : string) :
  stops_at_the_first_failure (print_prediction_from_file wav2letter file_name description).
Proof.
  unfold print_prediction_from_file, print_prediction, predict, print.
  apply stops_bind; [by apply stops_external|]. intros example.
  apply stops_bind; [|intros prediction; by apply stops_external].
  apply stops_bind; [by apply stops_external|]. intros spectrogram.
  by apply stops_external.
Qed.

Lemma predict_recording_stops : stops_at_the_first_failure predict_recording.
Proof.
  unfold predict_recording, load_best_wav2letter_model, print_example_predictions, print.
  apply stops_bind; [by apply stops_external|]. intros wav2letter.
  apply stops_bind; [by apply stops_external|]. intros ?.
  do 4 (apply stops_bind; [apply print_prediction_from_file_stops|]; intros ?).
  apply print_prediction_from_file_stops.
Qed.

(** Whatever the imported calls answer, [predict_recording] opens the
    five files in their order and stops at the first call that raises: the
    files it opens are the first ones of the list, and all five when it
    returns.  When the model cannot be loaded, that is the only call: nothing
    is printed and no file is opened.  The demo returns only when every call
    it made returned; when it raises [e], its last call is one that raised
    [e], every call before it returned, and no call follows.  So a failing
    [LabeledExample], spectrogram, [predict_single] or [print] call ends the
    demo with its exception. *)
Theorem predict_recording_stops_at_the_first_failure (w : World) :
  let run := predict_recording w in
  omap opened_file (calls_between w (snd run))
    `prefix_of` map (fun file => recording_directory // file.1) example_files
  /\ (forall o, fst run = Returns o ->
        omap opened_file (calls_between w (snd run))
        = map (fun file => recording_directory // file.1) example_files)
  /\ (forall e, Wav2Letter_answer (trace w) default_arguments = Raises e ->
        run = (Raises e, log (call_Wav2Letter default_arguments) w))
  /\ (forall o, fst run = Returns o -> all_return (trace w) (calls_between w (snd run)))
  /\ (forall e, fst run = Raises e ->
        exists before c,
          calls_between w (snd run) = before ++ [c]
          /\ all_return (trace w) before
          /\ exception_of (trace w ++ before) c = Some e)
  /\ (forall before c after,
        calls_between w (snd run) = before ++ c :: after ->
        forall e, exception_of (trace w ++ before) c = Some e ->
        after = [] /\ fst run = Raises e).
Proof.
  intros run.
  assert (Hstops :
    (forall o, fst run = Returns o -> all_return (trace w) (calls_between w (snd run)))
    /\ (forall e, fst run = Raises e ->
          exists before c,
            calls_between w (snd run) = before ++ [c]
            /\ all_return (trace w) before
            /\ exception_of (trace w ++ before) c = Some e)).
  { destruct (predict_recording_stops w) as (calls & Ht & Hend). fold run in Ht, Hend.
    unfold calls_between. rewrite Ht, drop_app_length.
    split; [intros o Ho | intros e He]; rewrite ?Ho, ?He in Hend; exact Hend. }
  assert (Hfirst : forall h calls before c after e,
            all_return h calls -> calls = before ++ c :: after ->
            exception_of (h ++ before) c = Some e -> False).
  { intros h calls before c after e Hall ->. revert h Hall.
    induction before as [|b before IH]; intros h; simpl.
    - rewrite app_nil_r. intros [Hc _] He. congruence.
    - intros [_ Hall] He. apply (IH _ Hall).
      by rewrite <- app_assoc. }
  cut (omap opened_file (calls_between w (snd run))
         `prefix_of` map (fun file => recording_directory // file.1) example_files
       /\ (forall o, fst run = Returns o ->
             omap opened_file (calls_between w (snd run))
             = map (fun file => recording_directory // file.1) example_files)
       /\ (forall e, Wav2Letter_answer (trace w) default_arguments = Raises e ->
             run = (Raises e, log (call_Wav2Letter default_arguments) w))).
  { intros (Hprefix & Hall & Hmodel). destruct Hstops as [Hreturns Hraises].
    split; [exact Hprefix|]. split; [exact Hall|]. split; [exact Hmodel|].
    split; [exact Hreturns|]. split; [exact Hraises|].
    intros before c after Hcalls e He.
    destruct (fst run) as [o|e'] eqn:Hrun.
    - destruct (Hfirst _ _ _ _ _ _ (Hreturns o eq_refl) Hcalls He).
    - destruct (Hraises e' eq_refl) as (before' & c' & Hcalls' & Hbefore' & He').
      destruct after as [|a after].
      + rewrite Hcalls in Hcalls'. apply app_inj_tail in Hcalls' as [<- <-].
        split; [reflexivity | congruence].
      + exfalso. rewrite Hcalls in Hcalls'.
        destruct (exists_last (l := a :: after)) as (middle & final & Hlast);
          [discriminate|].
        rewrite Hlast in Hcalls'.
        change (before ++ c :: middle ++ [final])
          with (before ++ (c :: middle) ++ [final]) in Hcalls'.
        rewrite app_assoc in Hcalls'. apply app_inj_tail in Hcalls' as [Hcut _].
        symmetry in Hcut. exact (Hfirst _ _ _ _ _ _ Hbefore' Hcut He). }
  clear Hstops Hfirst.
  assert (Hrun : run =
            match Wav2Letter_answer (trace w) default_arguments with
            | Returns wav2letter =>
                print_example_predictions wav2letter (log (call_Wav2Letter default_arguments) w)
            | Raises e => (Raises e, log (call_Wav2Letter default_arguments) w)
            end) by reflexivity.
  unfold calls_between.
  destruct (Wav2Letter_answer (trace w) default_arguments) as [wav2letter|e];
    rewrite Hrun; clear Hrun.
  - destruct (print_example_predictions_opens wav2letter
                (log (call_Wav2Letter default_arguments) w)) as (calls & Ht & Hp & Hr).
    rewrite Ht. simpl trace. rewrite <- app_assoc, drop_app_length. simpl.
    split; [exact Hp | split; [exact Hr | discriminate]].
  - simpl. rewrite drop_app_length. simpl.
    split; [apply prefix_nil | split; [discriminate | by intros ? [= ->]]].
Qed.

(** ** Nothing is forgotten *)

(** No operation removes a call from the trace, nor removes or replaces a
    corpus or a batch generator that an object has stored. *)
Theorem operations_never_forget (self : Configuration) (w : World) :
  (forall i c, corpus_slot w !! i = Some c ->
     corpus_slot (snd (corpus self w)) !! i = Some c
     /\ corpus_slot (snd (batch_generator self w)) !! i = Some c
     /\ corpus_slot (snd (fill_up_cache self w)) !! i = Some c
     /\ (forall count,
           corpus_slot (snd (train_transfer_from_best_english_model self count w)) !! i
           = Some c)
     /\ corpus_slot (snd (predict_recording w)) !! i = Some c)
  /\ (forall i g, batch_generator_slot w !! i = Some g ->
     batch_generator_slot (snd (corpus self w)) !! i = Some g
     /\ batch_generator_slot (snd (batch_generator self w)) !! i = Some g
     /\ batch_generator_slot (snd (fill_up_cache self w)) !! i = Some g
     /\ (forall count,
           batch_generator_slot
             (snd (train_transfer_from_best_english_model self count w)) !! i
           = Some g)
     /\ batch_generator_slot (snd (predict_recording w)) !! i = Some g)
  /\ trace w `prefix_of` trace (snd (corpus self w))
  /\ trace w `prefix_of` trace (snd (batch_generator self w))
  /\ trace w `prefix_of` trace (snd (fill_up_cache self w))
  /\ (forall count,
        trace w `prefix_of`
          trace (snd (train_transfer_from_best_english_model self count w)))
  /\ trace w `prefix_of` trace (snd (predict_recording w)).
Proof.
  pose proof (corpus_increasing self w) as Hc.
  pose proof (batch_generator_increasing self w) as Hg.
  pose proof (fill_up_cache_increasing self w) as Hf.
  pose proof (fun count => train_transfer_increasing self count w) as Ht.
  pose proof (predict_recording_increasing w) as Hp.
  split; [|split].
  - intros i c Hi. repeat split; try intros count;
      eapply later_corpus_slot; eauto.
  - intros i g Hi. repeat split; try intros count;
      eapply later_batch_generator_slot; eauto.
  - repeat split; try intros count; [apply Hc | apply Hg | apply Hf | apply Ht | apply Hp].
Qed.

End Further.

(** * The other workflows *)

Section WorkflowProperties.
Context {paths : PathLib} {library : Library}.

Lemma and_then_returns {A B} (m : Run A) (k : A -> Run B) (s s2 : Script) (b : B) :
  and_then m k s = (Returns b, s2) ->
  exists a s1, m s = (Returns a, s1) /\ k a s1 = (Returns b, s2).
Proof.
  unfold and_then. destruct (m s) as [[a|e] s1]; [|discriminate].
  intros Hk. by exists a, s1.
Qed.

Lemma step_returns {A} (c : Step) (reply : list Step -> Outcome A) (s s1 : Script) (a : A) :
  step c reply s = (Returns a, s1) -> reply (steps s) = Returns a /\ s1 = script_with s c.
Proof. unfold step. intros [= -> <-]. split; reflexivity. Qed.

Lemma lift_run {A} (m : Imports -> M A) (s : Script) :
  lift m s =
    (fst (m (imports_after (steps s)) (world_of s)),
     script_after s (snd (m (imports_after (steps s)) (world_of s)))).
Proof.
  unfold lift. fold (world_of s).
  by destruct (m (imports_after (steps s)) (world_of s)).
Qed.

Lemma lift_returns {A} (m : Imports -> M A) (s s1 : Script) (a : A) :
  lift m s = (Returns a, s1) ->
  exists w, m (imports_after (steps s)) (world_of s) = (Returns a, w) /\ s1 = script_after s w.
Proof.
  rewrite lift_run. destruct (m (imports_after (steps s)) (world_of s)) as [o w]; simpl.
  intros [= -> <-]. by exists w.
Qed.

(** What reading the corpus adds to the script: nothing when the object
    has it, the one call of its function otherwise. *)
Lemma lift_corpus_returns (self : Configuration) (s s1 : Script) (c : Corpus) :
  lift (fun _ => corpus self) s = (Returns c, s1) ->
  exists reads,
    steps s1 = steps s ++ map earlier reads
    /\ (reads = [] /\ corpora s !! instance self = Some c
        \/ reads = [invocation (corpus_from_directory self) (corpus_directory self)]
           /\ corpora s !! instance self = None)
    /\ corpora s1 !! instance self = Some c
    /\ generators s1 = generators s
    /\ next_object s1 = next_object s.
Proof.
  intros Hrun. apply lift_returns in Hrun as (w & Hc & ->).
  pose proof (@corpus_returns_stored _ (imports_after (steps s)) self _ _ _ Hc) as Hstored.
  pose proof (@corpus_keeps_batch_generator_slot _ (imports_after (steps s)) self (world_of s))
    as Hkeep.
  pose proof (@corpus_next_instance _ (imports_after (steps s)) self (world_of s)) as Hnext.
  rewrite Hc in Hkeep, Hnext. simpl in Hkeep, Hnext.
  destruct (@corpus_world _ (imports_after (steps s)) self (world_of s))
    as [(c' & Hsome & Hsame) | (Hnone & Ht & _)].
  - rewrite Hsame in Hc. injection Hc as -> <-.
    exists []. simpl. split; [reflexivity|]. split; [by left|]. by repeat split.
  - rewrite Hc in Ht. simpl in Ht.
    exists [invocation (corpus_from_directory self) (corpus_directory self)].
    simpl. rewrite Ht. split; [reflexivity|]. split; [by right|]. by repeat split.
Qed.

Lemma lift_external_returns {A} (c : Call)
    (answer : Imports -> list Call -> Outcome A) (s s1 : Script) (a : A) :
  lift (fun imports => external c (answer imports)) s = (Returns a, s1) ->
  answer (imports_after (steps s)) [] = Returns a /\ s1 = script_with s (earlier c).
Proof.
  intros Hrun. apply lift_returns in Hrun as (w & Hc & ->).
  unfold external in Hc. injection Hc as Ha <-. split; [exact Ha | reflexivity].
Qed.

(** What building the batch generator adds to the script of an object that
    has none: what reading the corpus adds, and the one call of the
    constructor. *)
Lemma lift_batch_generator_first (self : Configuration) (s s1 : Script)
    (g : LabeledSpectrogramBatchGenerator) :
  generators s !! instance self = None ->
  lift (fun _ => batch_generator self) s = (Returns g, s1) ->
  exists c reads,
    steps s1 = steps s ++ map earlier reads
                 ++ [earlier (call_LabeledSpectrogramBatchGenerator c
                                (spectrogram_cache_directory self))]
    /\ (reads = [] /\ corpora s !! instance self = Some c
        \/ reads = [invocation (corpus_from_directory self) (corpus_directory self)]
           /\ corpora s !! instance self = None)
    /\ corpora s1 !! instance self = Some c
    /\ generators s1 !! instance self = Some g.
Proof.
  intros Hnone Hrun. apply lift_returns in Hrun as (w & Hg & ->).
  rewrite (@batch_generator_first _ (imports_after (steps s)) self (world_of s)) in Hg
    by exact Hnone.
  pose proof (@corpus_returns_stored _ (imports_after (steps s)) self (world_of s)) as Hstored.
  destruct (@corpus_world _ (imports_after (steps s)) self (world_of s))
    as [(c' & Hsome & Hsame) | (Hcnone & Ht & _)].
  - rewrite Hsame in Hg, Hstored.
    destruct (LabeledSpectrogramBatchGenerator_answer _ c' _) as [g'|e]; [|discriminate].
    injection Hg as -> <-. exists c', []. simpl.
    split; [reflexivity|]. split; [by left|].
    split; [exact Hsome | apply lookup_insert_eq].
  - destruct (corpus self (world_of s)) as [[c|e] w0] eqn:Hc; [|discriminate].
    simpl in Ht.
    destruct (LabeledSpectrogramBatchGenerator_answer _ c _) as [g'|e]; [|discriminate].
    injection Hg as -> <-.
    exists c, [invocation (corpus_from_directory self) (corpus_directory self)].
    simpl. rewrite Ht. simpl.
    split; [reflexivity|]. split; [by right|].
    split; [by apply Hstored | apply lookup_insert_eq].
Qed.

Lemma lift_batch_generator_stored (self : Configuration) (s : Script)
    (g : LabeledSpectrogramBatchGenerator) :
  generators s !! instance self = Some g ->
  fst (lift (fun _ => batch_generator self) s) = Returns g
  /\ steps (snd (lift (fun _ => batch_generator self) s)) = steps s
  /\ corpora (snd (lift (fun _ => batch_generator self) s)) = corpora s
  /\ generators (snd (lift (fun _ => batch_generator self) s)) = generators s.
Proof.
  intros Hsome. rewrite lift_run.
  rewrite (@batch_generator_stored _ (imports_after (steps s)) self (world_of s) g Hsome).
  simpl. by rewrite app_nil_r.
Qed.

(** ** Saving a corpus *)


(** ** Testing the best model *)

(** When [test_best_model] returns on a Configuration that had no batch
    generator, it has first asked for the model of the checkpoint, for the
    alphabet of the Configuration and without frozen layers, then built the
    batch generator once, and used that one generator for the preview batch
    and for the test batches. *)
Theorem test_best_model_builds_one_generator (self : Configuration)
    (use_ken_lm : option bool) (s s1 : Script) :
  generators s !! instance self = None ->
  test_best_model self use_ken_lm s = (Returns tt, s1) ->
  exists arguments wav2letter c g batch expectations batches loss text reads,
    steps s1 = steps s ++ earlier (call_Wav2Letter arguments) :: map earlier reads
                 ++ [earlier (call_LabeledSpectrogramBatchGenerator c
                                (spectrogram_cache_directory self));
                     call_preview_batch g;
                     call_expectations_vs_predictions wav2letter batch;
                     call_print_object expectations;
                     call_test_batches g;
                     call_loss wav2letter batches;
                     call_format loss;
                     earlier (call_print ("Average loss: " +:+ text))]
    /\ arg_allowed_characters arguments = allowed_characters self
    /\ arg_frozen_layer_count arguments = 0
    /\ arg_load_epoch arguments = 1192
    /\ (reads = []
        \/ reads = [invocation (corpus_from_directory self) (corpus_directory self)])
    /\ corpora s1 !! instance self = Some c
    /\ generators s1 !! instance self = Some g.
Proof.
  intros Hnone Hrun. unfold test_best_model in Hrun.
  apply and_then_returns in Hrun as (wav2letter & s2 & Hmodel & Hrun).
  apply and_then_returns in Hrun as (g & s3 & Hg & Hrun).
  apply and_then_returns in Hrun as (batch & s4 & Hbatch & Hrun).
  apply and_then_returns in Hrun as (expectations & s5 & Hexp & Hrun).
  apply and_then_returns in Hrun as ([] & s6 & Hprint & Hrun).
  apply and_then_returns in Hrun as (g' & s7 & Hg' & Hrun).
  apply and_then_returns in Hrun as (batches & s8 & Hbatches & Hrun).
  apply and_then_returns in Hrun as (loss & s9 & Hloss & Hrun).
  apply and_then_returns in Hrun as (text & s10 & Htext & Hrun).
  unfold load_best_wav2letter_model in Hmodel.
  apply (lift_external_returns _ (fun imports h => Wav2Letter_answer h _)) in Hmodel
    as (_ & ->).
  apply lift_batch_generator_first in Hg as (c & reads & Hsteps & Hreads & Hc & Hgen);
    [|exact Hnone].
  apply step_returns in Hbatch as (_ & ->).
  apply step_returns in Hexp as (_ & ->).
  apply step_returns in Hprint as (_ & ->).
  destruct (lift_batch_generator_stored self
              (script_with (script_with (script_with s3 (call_preview_batch g))
                 (call_expectations_vs_predictions wav2letter batch))
                 (call_print_object expectations)) g Hgen)
    as (Hfst & Hsteps' & Hcorpora' & Hgenerators').
  rewrite Hg' in Hfst, Hsteps', Hcorpora', Hgenerators'.
  simpl in Hfst, Hsteps', Hcorpora', Hgenerators'.
  injection Hfst as ->.
  apply step_returns in Hbatches as (_ & ->).
  apply step_returns in Hloss as (_ & ->).
  apply step_returns in Htext as (_ & ->).
  unfold print in Hrun.
  apply (lift_external_returns _ (fun imports h => print_answer h _)) in Hrun as (_ & ->).
  eexists _, wav2letter, c, g, batch, expectations, batches, loss, text, reads.
  split.
  - simpl. rewrite Hsteps', Hsteps. simpl. rewrite <- !app_assoc. reflexivity.
  - split; [reflexivity|]. split; [reflexivity|]. split; [reflexivity|].
    split; [destruct Hreads as [[-> _] | [-> _]]; [by left | by right]|].
    simpl. rewrite Hcorpora', Hgenerators'. split; assumption.
Qed.

(** ** Training from scratch *)

(** When [train] returns, it has built a new model for the alphabet of
    the Configuration, not one loaded from a checkpoint, read the corpus at
    most once, and trained with 100 batches per epoch under the logs and nets
    directories of the run name made of the timestamp and the name of the
    Configuration. *)
Theorem train_builds_a_new_model (self : Configuration) (s s1 : Script) :
  train self s = (Returns tt, s1) ->
  exists stamp wav2letter c wwc reads,
    timestamp_reply (steps s) = Returns stamp
    /\ steps s1
       = steps s ++ earlier call_timestamp
           :: call_new_Wav2Letter 128 (allowed_characters self)
           :: map earlier reads
           ++ [earlier (call_Wav2LetterWithCorpus wav2letter c
                          (spectrogram_cache_directory self));
               earlier (call_train wwc
                          (the_home_directory // "speechless-data" // "logs"
                             // training_run_name stamp (name self))
                          (the_home_directory // "speechless-data" // "nets"
                             // training_run_name stamp (name self))
                          100)]
    /\ (reads = []
        \/ reads = [invocation (corpus_from_directory self) (corpus_directory self)])
    /\ Forall (fun c => loads_checkpoint c = false) (drop (length (steps s)) (steps s1))
    /\ corpora s1 !! instance self = Some c.
Proof.
  intros Hrun. unfold train in Hrun.
  apply and_then_returns in Hrun as (stamp & s2 & Hstamp & Hrun).
  apply and_then_returns in Hrun as (wav2letter & s3 & Hmodel & Hrun).
  apply and_then_returns in Hrun as (c & s4 & Hcorpus & Hrun).
  apply and_then_returns in Hrun as (wwc & s5 & Hwwc & Hrun).
  unfold timestamp in Hstamp.
  apply (lift_external_returns _ (fun imports h => timestamp_answer h)) in Hstamp
    as (Hreply & ->).
  apply step_returns in Hmodel as (_ & ->).
  apply lift_corpus_returns in Hcorpus as (reads & Hsteps & Hreads & Hkept & _ & _).
  apply (lift_external_returns _
           (fun imports h => Wav2LetterWithCorpus_answer h _ _ _)) in Hwwc as (_ & ->).
  apply (lift_external_returns _ (fun imports h => train_answer h _ _ _ _)) in Hrun
    as (_ & ->).
  exists stamp, wav2letter, c, wwc, reads.
  assert (Hall : steps (script_with (script_with s4 (earlier (call_Wav2LetterWithCorpus
                    wav2letter c (spectrogram_cache_directory self))))
                    (earlier (call_train wwc
                       (the_home_directory // "speechless-data" // "logs"
                          // training_run_name stamp (name self))
                       (the_home_directory // "speechless-data" // "nets"
                          // training_run_name stamp (name self)) 100)))
                 = steps s ++ earlier call_timestamp
                     :: call_new_Wav2Letter 128 (allowed_characters self)
                     :: map earlier reads
                     ++ [earlier (call_Wav2LetterWithCorpus wav2letter c
                                    (spectrogram_cache_directory self));
                         earlier (call_train wwc
                                    (the_home_directory // "speechless-data" // "logs"
                                       // training_run_name stamp (name self))
                                    (the_home_directory // "speechless-data" // "nets"
                                       // training_run_name stamp (name self))
                                    100)]).
  { simpl. rewrite Hsteps. simpl. by rewrite <- !app_assoc. }
  split; [simpl in Hreply; by rewrite app_nil_r in Hreply|]. split; [exact Hall|].
  split; [destruct Hreads as [[-> _] | [-> _]]; [by left | by right]|].
  split; [|exact Hkept].
  change (steps _) with (steps (script_with (script_with s4 (earlier (call_Wav2LetterWithCorpus
                    wav2letter c (spectrogram_cache_directory self))))
                    (earlier (call_train wwc
                       (the_home_directory // "speechless-data" // "logs"
                          // training_run_name stamp (name self))
                       (the_home_directory // "speechless-data" // "nets"
                          // training_run_name stamp (name self)) 100)))) at 2.
  rewrite Hall, drop_app_length.
  destruct Hreads as [[-> _] | [-> _]]; simpl.
  - by repeat constructor.
  - repeat constructor. by destruct (corpus_from_directory self).
Qed.


(** ** Recording *)


(** ** The statement the script ends with *)

Lemma extends_step {A} (c : Step) (reply : list Step -> Outcome A) : extends (step c reply).
Proof. intros s. by exists [c]. Qed.

Lemma extends_lift {A} (m : Imports -> M A) : extends (lift m).
Proof. intros s. rewrite lift_run. simpl. by eexists. Qed.

Lemma extends_finish {A} (a : A) : extends (finish a).
Proof. intros s. exists []. simpl. by rewrite app_nil_r. Qed.

Lemma extends_and_then {A B} (m : Run A) (k : A -> Run B) :
  extends m -> (forall a, extends (k a)) -> extends (and_then m k).
Proof.
  intros Hm Hk s. unfold and_then. destruct (Hm s) as [rest Hrest].
  destruct (m s) as [[a|e] s1]; simpl in *; [|by exists rest].
  destruct (Hk a s1) as [rest' Hrest']. exists (rest ++ rest').
  by rewrite Hrest', Hrest, app_assoc.
Qed.

(** The statement the module ends with makes the English Configuration
    and asks for the model of the checkpoint with the alphabet the checkpoint
    was trained on, without frozen layers and without a language model,
    whatever the state of the script. *)
Theorem main_tests_the_trained_alphabet (s : Script) :
  exists arguments rest,
    steps (snd (main s)) = steps s ++ earlier (call_Wav2Letter arguments) :: rest
    /\ arg_allowed_characters arguments = arg_allowed_characters_for_loaded_model arguments
    /\ arg_allowed_characters arguments = the_english_frequent_characters
    /\ arg_frozen_layer_count arguments = 0
    /\ arg_kenlm_directory arguments = None.
Proof.
  unfold main, and_then at 1. rewrite lift_run. simpl.
  unfold test_best_model.
  match goal with
  | |- context [and_then (lift ?m) ?k ?s0] =>
      set (load := m); set (continue := k); set (s' := s0)
  end.
  assert (Hcontinue : forall a, extends (continue a)).
  { intros a. unfold continue.
    repeat (apply extends_and_then; [|intros ?]);
      apply extends_step || apply extends_lift. }
  unfold and_then. rewrite lift_run.
  destruct (load (imports_after (steps s')) (world_of s')) as [[wav2letter|e] w] eqn:Hload;
    unfold load, load_best_wav2letter_model, external in Hload;
    injection Hload as _ <-; simpl.
  - match goal with
    | |- context [continue wav2letter ?x] =>
        destruct (Hcontinue wav2letter x) as [rest Hrest]
    end.
    rewrite Hrest. simpl. rewrite app_nil_r, <- app_assoc. simpl.
    do 2 eexists. split; [reflexivity|]. repeat split.
  - rewrite app_nil_r. do 2 eexists. split; [reflexivity|]. repeat split.
Qed.

End WorkflowProperties.

(** * The further properties at work in the sample environment *)


(** The corpus file is missing: no batch generator, no [fill_cache]. *)
Lemma batch_generator_failure_witness :
  @fill_up_cache parts (studio 1) (sample_german 1) sample_world
  = (Raises (Exception "FileNotFoundError"),
     log (call_Corpus_load (sample_home // "corpus" // "German" // "corpus.csv"))
       sample_world).
Proof.
  exact (proj1 (proj2 (@batch_generator_failure parts (studio 1) (sample_german 1)
                         sample_world _ _ eq_refl eq_refl))).
Defined.

(** Two German Configurations read the corpus file twice. *)
Lemma objects_read_their_own_corpus_witness :
  exists self1 self2 w1 w2 w3 c1,
    @german parts (studio 0) None initial_world = (Returns self1, w1)
    /\ @corpus parts (studio 0) self1 w1 = (Returns c1, w2)
    /\ @german parts (studio 0) None w2 = (Returns self2, w3)
    /\ trace (snd (@corpus parts (studio 0) self2 w3))
       = [call_Corpus_load (sample_home // "corpus" // "German" // "corpus.csv");
          call_Corpus_load (sample_home // "corpus" // "German" // "corpus.csv")].
Proof.
  do 6 eexists. split; [reflexivity|]. split; [reflexivity|]. split; [reflexivity|].
  edestruct (@objects_read_their_own_corpus parts (studio 0) "German" "German"
               ["b"; "c"; "d"] ["b"; "c"; "d"] load_cached_corpus_function
               load_cached_corpus_function None None None None initial_world)
    as (_ & Ht3 & Hread & _); [| reflexivity | reflexivity | reflexivity |].
  - intros i _. split; reflexivity.
  - exact Hread.
Defined.

(** The corpus file is missing when transfer training asks for it. *)
Lemma transfer_fails_after_the_model_witness :
  exists w2,
    @train_transfer_from_best_english_model parts (studio 3) (sample_german 3) None
      sample_world = (Raises (Exception "FileNotFoundError"), w2)
    /\ length (trace w2) = 3%nat.
Proof.
  destruct (@transfer_fails_after_the_model parts (studio 3) (sample_german 3) None
              sample_world _ "20170316-180957" (Wav2Letter_at 1)
              (Exception "FileNotFoundError") eq_refl eq_refl eq_refl eq_refl)
    as (Hrun & Htrace & _).
  eexists. split; [exact Hrun|]. by rewrite Htrace.
Defined.

(** Two transfer trainings of the German Configuration. *)
Lemma transfer_reads_the_corpus_once_witness :
  Forall (fun c => is_corpus_call c = false)
    (calls_between
       (snd (@train_transfer_from_best_english_model parts (studio 0) (sample_german 0)
               (Some 1) sample_world))
       (snd (@train_transfer_from_best_english_model parts (studio 0) (sample_german 0)
               (Some 2)
               (snd (@train_transfer_from_best_english_model parts (studio 0)
                       (sample_german 0) (Some 1) sample_world))))).
Proof.
  exact (proj1 (@transfer_reads_the_corpus_once parts (studio 0) (sample_german 0)
                  (Some 1) (Some 2) sample_world _ eq_refl _ (later_refl _))).
Defined.

(** Two runs of one second with different frozen layer counts. *)
Lemma transfer_run_name_injective_witness :
  transfer_run_name "20170316-180957" "German" 10
  = transfer_run_name "20170316-180957" "German" (11 - 1)
  /\ ("20170316-180957" = "20170316-180957" /\ "German" = "German" /\ 10 = 11 - 1).
Proof.
  split; [reflexivity|].
  exact (transfer_run_name_injective "20170316-180957" "20170316-180957" "German" "German"
           10 (11 - 1) eq_refl eq_refl eq_refl).
Defined.


(** The best model is tested on the German Configuration. *)
Lemma test_best_model_builds_one_generator_witness :
  exists g,
    generators (snd (@test_best_model parts sample_library (sample_german 0) None
                       sample_script)) !! 0%nat = Some g
    /\ length (steps (snd (@test_best_model parts sample_library (sample_german 0) None
                             sample_script))) = 10%nat.
Proof.
  assert (Hrun : @test_best_model parts sample_library (sample_german 0) None sample_script
                 = (Returns tt,
                    snd (@test_best_model parts sample_library (sample_german 0) None
                           sample_script)))
    by (vm_compute; reflexivity).
  destruct (@test_best_model_builds_one_generator parts sample_library (sample_german 0)
              None sample_script _ eq_refl Hrun)
    as (arguments & wav2letter & c & g & batch & expectations & batches & loss & text
        & reads & Hsteps & _ & _ & _ & _ & _ & Hg).
  exists g. split; [exact Hg | vm_compute; reflexivity].
Defined.

(** The German Configuration is trained from scratch. *)
Lemma train_builds_a_new_model_witness :
  Forall (fun c => loads_checkpoint c = false)
    (drop (length (steps sample_script))
       (steps (snd (@train parts sample_library (sample_german 0) sample_script)))).
Proof.
  assert (Hrun : @train parts sample_library (sample_german 0) sample_script
                 = (Returns tt,
                    snd (@train parts sample_library (sample_german 0) sample_script)))
    by (vm_compute; reflexivity).
  destruct (@train_builds_a_new_model parts sample_library (sample_german 0) sample_script
              _ Hrun) as (stamp & wav2letter & c & wwc & reads & _ & _ & _ & Hnone & _).
  exact Hnone.
Defined.


